(** * apt-parser: a shallow embedding of [aptparser.py] and [apt-mirror.py]

    The development follows the pipeline of the program: source declaration
    lines, the index fetcher with its cache-path derivation, the control
    record parser, the version resolver, the download driver and the JSON
    snapshot.  Text is modelled over the code points below 256 (one [ascii]
    per character).  The console of [rich] is a parameter of the source
    list resolver and of the index fetcher: a [print] there whose text holds
    data of the input is a call of it, and can fail.  The message of the
    record parser before it raises again, the message of the download
    driver about a skipped record, constant texts, progress bars and tables
    are left out. *)

From Stdlib Require Import ZArith NArith Ascii String List Bool Lia.
From Stdlib Require Import DecimalString.
From stdpp Require Import gmap strings list fin_maps sorting.

Local Open Scope string_scope.

(** ** Python string primitives *)

Module PyStr.

Definition NL : ascii := "010"%char.

Definition code (c : ascii) : N := N_of_ascii c.

(** [str.isspace] restricted to one character, as used by [str.strip()]
    without arguments and by the regex class [\s]. *)
Definition isspace (c : ascii) : bool :=
  let n := code c in
  ((9 <=? n) && (n <=? 13) || (28 <=? n) && (n <=? 32)
   || (n =? 133) || (n =? 160))%N.

Definition isdigit (c : ascii) : bool :=
  let n := code c in ((48 <=? n) && (n <=? 57))%N.

Definition is_nl (c : ascii) : bool := Ascii.eqb c NL.

Definition lower_char (c : ascii) : ascii :=
  let n := code c in
  if ((65 <=? n) && (n <=? 90)
      || (192 <=? n) && (n <=? 222) && negb (n =? 215))%N
  then ascii_of_N (n + 32) else c.

(** [s.lower()] *)
Fixpoint lower (s : string) : string :=
  match s with
  | EmptyString => EmptyString
  | String c s' => String (lower_char c) (lower s')
  end.

(** [s.startswith(p)] *)
Definition startswith (s p : string) : bool := String.prefix p s.

Fixpoint drop (n : nat) (s : string) : string :=
  match n, s with
  | S n', String _ s' => drop n' s'
  | _, _ => s
  end.

Fixpoint take (n : nat) (s : string) : string :=
  match n, s with
  | S n', String c s' => String c (take n' s')
  | _, _ => EmptyString
  end.

Fixpoint lstrip (p : ascii -> bool) (s : string) : string :=
  match s with
  | String c s' => if p c then lstrip p s' else s
  | EmptyString => EmptyString
  end.

Fixpoint rstrip (p : ascii -> bool) (s : string) : string :=
  match s with
  | EmptyString => EmptyString
  | String c s' =>
      match rstrip p s' with
      | EmptyString => if p c then EmptyString else String c EmptyString
      | r => String c r
      end
  end.

(** [s.strip()] strips white space, [s.strip("\n")] strips newlines. *)
Definition strip_by (p : ascii -> bool) (s : string) : string :=
  rstrip p (lstrip p s).
Definition strip (s : string) : string := strip_by isspace s.
Definition strip_nl (s : string) : string := strip_by is_nl s.

(** [s.split(sep)] for a non-empty separator: the pieces between the
    non-overlapping occurrences of [sep], scanned from the left.  The
    counter [skip] is the number of separator characters still to pass. *)
Fixpoint split_go (sep s : string) (skip : nat) : string * list string :=
  match s with
  | EmptyString => (EmptyString, [])
  | String c s' =>
      match skip with
      | S k => split_go sep s' k
      | O =>
          if String.prefix sep s
          then let '(p, ps) := split_go sep s' (String.length sep - 1) in
               (EmptyString, p :: ps)
          else let '(p, ps) := split_go sep s' 0 in
               (String c p, ps)
      end
  end.

Definition split (s sep : string) : list string :=
  let '(p, ps) := split_go sep s 0 in p :: ps.

(** [s.split(sep, 1)]: [None] when [sep] does not occur (the result has
    one element), otherwise the text before and after its first
    occurrence. *)
Fixpoint split_once (s sep : string) {struct s} : option (string * string) :=
  if String.prefix sep s then Some (EmptyString, drop (String.length sep) s)
  else match s with
       | EmptyString => None
       | String c s' =>
           match split_once s' sep with
           | Some (a, b) => Some (String c a, b)
           | None => None
           end
       end.

(** [sep.join(l)] *)
Definition join (sep : string) (l : list string) : string :=
  String.concat sep l.

(** [s.replace(a, b)] for one-character [a] and [b]. *)
Fixpoint replace_char (a b : ascii) (s : string) : string :=
  match s with
  | EmptyString => EmptyString
  | String c s' =>
      String (if Ascii.eqb c a then b else c) (replace_char a b s')
  end.

(** [s.endswith(p)] *)
Fixpoint endswith (s p : string) : bool :=
  String.eqb s p
  || match s with
     | EmptyString => false
     | String _ s' => endswith s' p
     end.

(** Line boundaries of [str.splitlines()] below code point 256. *)
Definition is_linebreak (c : ascii) : bool :=
  let n := code c in
  ((10 <=? n) && (n <=? 13) || (28 <=? n) && (n <=? 30) || (n =? 133))%N.

Definition lines_of (r : option string * list string) : list string :=
  match r with
  | (Some l, ls) => l :: ls
  | (None, ls) => ls
  end.

Fixpoint splitlines_go (s : string) (after_cr : bool)
  : option string * list string :=
  match s with
  | EmptyString => (None, [])
  | String c s' =>
      if after_cr && is_nl c then splitlines_go s' false
      else if is_linebreak c
      then (Some EmptyString,
            lines_of (splitlines_go s' (Ascii.eqb c "013"%char)))
      else let '(cur, rest) := splitlines_go s' false in
           (Some (String c (default EmptyString cur)), rest)
  end.

(** [s.splitlines()] *)
Definition splitlines (s : string) : list string :=
  lines_of (splitlines_go s false).

Definition digit_val (c : ascii) : Z := Z.of_N (code c) - 48.

(** Digits of a base-10 literal, where single underscores may separate
    digits; [acc] is the value read so far, [prev_digit] tells whether the
    previous character was a digit. *)
Fixpoint int_digits (s : string) (acc : Z) (prev_digit : bool) : option Z :=
  match s with
  | EmptyString => if prev_digit then Some acc else None
  | String c s' =>
      if isdigit c then int_digits s' (10 * acc + digit_val c) true
      else if Ascii.eqb c "_"%char && prev_digit then int_digits s' acc false
      else None
  end.

(** The white space [int] passes over around a literal: the six
    characters of C, and the two above code point 127 that [str.isspace]
    accepts.  The separators 28 to 31, which [str.strip] removes, are not
    among them. *)
Definition int_space (c : ascii) : bool :=
  let n := code c in
  ((9 <=? n) && (n <=? 13) || (n =? 32) || (n =? 133) || (n =? 160))%N.

(** The number of digits of a literal, its underscores left out, and the
    most [int] converts: the default of [sys.int_max_str_digits]. *)
Fixpoint count_digits (s : string) : N :=
  match s with
  | EmptyString => 0
  | String c s' => (if isdigit c then 1 else 0) + count_digits s'
  end%N.

Definition max_str_digits : N := 4300.

Definition int_literal (d : string) : option Z :=
  if (max_str_digits <? count_digits d)%N then None
  else int_digits d 0 false.

(** [int(s)] on text: white space around, an optional sign and a decimal
    literal; [None] stands for [ValueError]. *)
Definition int (s : string) : option Z :=
  match strip_by int_space s with
  | String "-"%char d => option_map Z.opp (int_literal d)
  | String "+"%char d => int_literal d
  | d => int_literal d
  end.

(** [repr(s)] for text: single quotes unless the text holds one and no
    double quote; the quote and the backslash escaped; tab, newline and
    carriage return by their letters; every other character that is not
    printable as [\xhh]. *)
Definition DQ : ascii := "034"%char.

Fixpoint has_char (x : ascii) (s : string) : bool :=
  match s with
  | EmptyString => false
  | String c s' => Ascii.eqb c x || has_char x s'
  end.

Definition isprintable (c : ascii) : bool :=
  let n := code c in
  ((32 <=? n) && (n <? 127) || (161 <=? n) && negb (n =? 173))%N.

Definition hex_digit (n : N) : ascii :=
  ascii_of_N (if (n <? 10)%N then 48 + n else 87 + n).

Definition repr_char (quote c : ascii) : string :=
  if Ascii.eqb c quote || Ascii.eqb c "\"%char then String "\" (String c "")
  else if Ascii.eqb c "009"%char then "\t"
  else if Ascii.eqb c "010"%char then "\n"
  else if Ascii.eqb c "013"%char then "\r"
  else if isprintable c then String c ""
  else String "\" (String "x" (String (hex_digit (code c / 16))
                                 (String (hex_digit (code c mod 16)) ""))).

Fixpoint repr_chars (quote : ascii) (s : string) : string :=
  match s with
  | EmptyString => String quote ""
  | String c s' => repr_char quote c ++ repr_chars quote s'
  end.

Definition repr (s : string) : string :=
  let quote :=
    if has_char "'" s && negb (has_char DQ s) then DQ else "'"%char in
  String quote (repr_chars quote s).

(** [str(n)] for an integer. *)
Definition str_of_int (n : Z) : string :=
  NilZero.string_of_int (Z.to_int n).

(** Every character of [s] satisfies [p]. *)
Fixpoint all_chars (p : ascii -> bool) (s : string) : bool :=
  match s with
  | EmptyString => true
  | String c s' => p c && all_chars p s'
  end.

Definition no_nl (s : string) : Prop :=
  all_chars (fun c => negb (is_nl c)) s = true.

End PyStr.

(** ** Regular expressions

    The patterns of the program use literals, character classes, greedy and
    lazy repetition of a class, optional parts, alternation, groups and the
    start anchor.  The matcher is a backtracking one in continuation-passing
    style: alternatives are tried from the left, a greedy repetition takes
    the longest run first and gives characters back one at a time, and the
    first way to reach the end of the pattern wins, as in Python's [re]. *)

Module Re.

Inductive regex :=
| Bol                                      (* ^ *)
| Chr (c : ascii)                          (* a literal character *)
| Cls (p : ascii -> bool)                  (* one character of a class *)
| Star (greedy : bool) (p : ascii -> bool) (* class* and class*? *)
| Opt (r : regex)                          (* r? *)
| Seq (r1 r2 : regex)
| Alt (r1 r2 : regex)
| Group (name : string) (r : regex).       (* (r) and (?P<name>r) *)

Fixpoint lit (s : string) : regex :=
  match s with
  | EmptyString => Star true (fun _ => false)
  | String c EmptyString => Chr c
  | String c s' => Seq (Chr c) (lit s')
  end.

Definition plus (greedy : bool) (p : ascii -> bool) : regex :=
  Seq (Cls p) (Star greedy p).

Fixpoint seq (rs : list regex) : regex :=
  match rs with
  | [] => Star true (fun _ => false)
  | [r] => r
  | r :: rs' => Seq r (seq rs')
  end.

(** Character classes. *)
Definition space : ascii -> bool := PyStr.isspace.          (* \s *)
Definition nonspace (c : ascii) : bool := negb (PyStr.isspace c). (* \S *)
Definition dot (c : ascii) : bool := negb (PyStr.is_nl c).  (* . *)
Definition none_of (x : ascii) (c : ascii) : bool := negb (Ascii.eqb c x).

Abbreviation groups := (gmap string string).

Section Matcher.
Context {R : Type}.
(** The text the match started on; [Bol] holds where nothing of it has
    been consumed. *)
Variable whole : string.

Fixpoint star_greedy (p : ascii -> bool) (k : string -> option R)
    (s : string) : option R :=
  match s with
  | String c s' =>
      if p c then
        match star_greedy p k s' with
        | Some x => Some x
        | None => k s
        end
      else k s
  | EmptyString => k s
  end.

Fixpoint star_lazy (p : ascii -> bool) (k : string -> option R)
    (s : string) : option R :=
  match k s with
  | Some x => Some x
  | None =>
      match s with
      | String c s' => if p c then star_lazy p k s' else None
      | EmptyString => None
      end
  end.

Fixpoint run (r : regex) (s : string) (g : groups)
    (k : string -> groups -> option R) : option R :=
  match r with
  | Bol =>
      if Nat.eqb (String.length s) (String.length whole) then k s g
      else None
  | Chr c =>
      match s with
      | String c' s' => if Ascii.eqb c' c then k s' g else None
      | EmptyString => None
      end
  | Cls p =>
      match s with
      | String c' s' => if p c' then k s' g else None
      | EmptyString => None
      end
  | Star true p => star_greedy p (fun s' => k s' g) s
  | Star false p => star_lazy p (fun s' => k s' g) s
  | Opt r1 =>
      match run r1 s g k with
      | Some x => Some x
      | None => k s g
      end
  | Seq r1 r2 => run r1 s g (fun s' g' => run r2 s' g' k)
  | Alt r1 r2 =>
      match run r1 s g k with
      | Some x => Some x
      | None => run r2 s g k
      end
  | Group name r1 =>
      run r1 s g (fun s' g' =>
        k s' (<[name := PyStr.take (String.length s - String.length s') s]> g'))
  end.
End Matcher.

(** [pat.match(s)]: the groups and the unmatched rest of [s]. *)
Definition rmatch (pat : regex) (s : string) : option (groups * string) :=
  run s pat s ∅ (fun rest g => Some (g, rest)).

(** Length of the match of [pat] at the front of [s], inside [whole]. *)
Definition match_len (pat : regex) (whole s : string) : option nat :=
  run whole pat s ∅ (fun rest _ => Some (String.length s - String.length rest)).

(** [re.sub(pat, "", s)]: the text outside the non-overlapping matches,
    found from the left.  A match of length zero removes nothing. *)
Fixpoint sub_go (pat : regex) (whole s : string) (skip : nat) : string :=
  match s with
  | EmptyString => EmptyString
  | String c s' =>
      match skip with
      | S n => sub_go pat whole s' n
      | O =>
          match match_len pat whole s with
          | Some (S n) => sub_go pat whole s' n
          | _ => String c (sub_go pat whole s' 0)
          end
      end
  end.

Definition sub_empty (pat : regex) (s : string) : string :=
  sub_go pat s s 0.

(** [re.split(pat, s)] for a pattern without groups that matches no empty
    text. *)
Fixpoint split_go (pat : regex) (whole s : string) (skip : nat)
  : string * list string :=
  match s with
  | EmptyString => (EmptyString, [])
  | String c s' =>
      match skip with
      | S n => split_go pat whole s' n
      | O =>
          match match_len pat whole s with
          | Some (S n) =>
              let '(p, ps) := split_go pat whole s' n in
              (EmptyString, p :: ps)
          | _ =>
              let '(p, ps) := split_go pat whole s' 0 in
              (String c p, ps)
          end
      end
  end.

Definition split (pat : regex) (s : string) : list string :=
  let '(p, ps) := split_go pat s s 0 in p :: ps.

(** Whether a pattern has a group of the given name. *)
Fixpoint has_group (name : string) (r : regex) : bool :=
  match r with
  | Bol | Chr _ | Cls _ | Star _ _ => false
  | Opt r1 => has_group name r1
  | Seq r1 r2 | Alt r1 r2 => has_group name r1 || has_group name r2
  | Group name' r1 => String.eqb name' name || has_group name r1
  end.

(** Every character the pattern can consume satisfies [q]. *)
Fixpoint consumes_only (q : ascii -> bool) (r : regex) : Prop :=
  match r with
  | Bol => True
  | Chr c => q c = true
  | Cls p | Star _ p => forall c, p c = true -> q c = true
  | Opt r1 | Group _ r1 => consumes_only q r1
  | Seq r1 r2 | Alt r1 r2 => consumes_only q r1 /\ consumes_only q r2
  end.

End Re.

(** ** The patterns of [aptparser.py] *)

(** [SOURCES_LINE_PAT]: the start anchor, the group [source_type] with
    the alternatives deb and deb-src, white space, an optional bracketed
    block followed by white space, the group [url] (http, an optional s,
    ://, non-space characters), white space, the group [release] of
    non-space characters, white space, the group [components] of characters
    other than the hash sign, and trailing white space. *)
Definition SOURCES_LINE_PAT : Re.regex :=
  Re.seq
    [ Re.Bol;
      Re.Group "source_type" (Re.Alt (Re.lit "deb") (Re.lit "deb-src"));
      Re.plus true Re.space;
      Re.Opt (Re.seq [ Re.Chr "["%char; Re.plus true Re.nonspace; Re.Chr "]"%char;
                       Re.plus true Re.space ]);
      Re.Group "url" (Re.seq [ Re.lit "http"; Re.Opt (Re.Chr "s"%char);
                               Re.lit "://"; Re.plus true Re.nonspace ]);
      Re.plus true Re.space;
      Re.Group "release" (Re.plus true Re.nonspace);
      Re.plus true Re.space;
      Re.Group "components" (Re.plus true (Re.none_of "#"%char));
      Re.Star true Re.space ].

(** [SOURCES_LINE_FILTER_PAT]: one group with two alternatives, a bracketed
    block followed by white space, or lazily matched white space followed by
    a hash sign and the rest of the line. *)
Definition SOURCES_LINE_FILTER_PAT : Re.regex :=
  Re.Group "1"
    (Re.Alt
       (Re.seq [ Re.Chr "["%char; Re.plus true (Re.none_of "]"%char); Re.Chr "]"%char;
                 Re.plus true Re.space ])
       (Re.seq [ Re.plus false Re.space; Re.Chr "#"%char; Re.Star true Re.dot ])).

(** [URL_MATCHER]: http, an optional s, ://, group 1 (any characters but a
    newline, greedy), a dot, and group 2, one of gz, xz, lzma, bz2. *)
Definition URL_MATCHER : Re.regex :=
  Re.seq
    [ Re.lit "http"; Re.Opt (Re.Chr "s"%char); Re.lit "://";
      Re.Group "1" (Re.Star true Re.dot);
      Re.Chr "."%char;
      Re.Group "2" (Re.Alt (Re.lit "gz")
                      (Re.Alt (Re.lit "xz")
                         (Re.Alt (Re.lit "lzma") (Re.lit "bz2")))) ].

(** The pattern of the [re.sub] call on a declaration line: an optional
    space, a hash sign and the rest of the line. *)
Definition COMMENT_PAT : Re.regex :=
  Re.seq [ Re.Opt (Re.Chr " "%char); Re.Chr "#"%char; Re.Star true Re.dot ].

(** The pattern of the [re.split] call on the components: white space. *)
Definition SPACES_PAT : Re.regex := Re.plus true Re.space.

(** ** Exceptions and results *)

Inductive exn :=
| ValueError
| TypeError
| AttributeError
| NameError
| OSError
| MarkupError
| DebSrcNotImplemented
| DebSrcLineUnparseable
| InvalidListException
| SystemExit (code : Z).

Inductive result (A : Type) :=
| Ok (a : A)
| Raise (e : exn).
Arguments Ok {A} a.
Arguments Raise {A} e.

Definition rbind {A B} (r : result A) (f : A -> result B) : result B :=
  match r with
  | Ok a => f a
  | Raise e => Raise e
  end.

Global Instance result_ret : MRet result := fun A a => Ok a.
Global Instance result_bind : MBind result := fun A B f r => rbind r f.

(** ** Values, records and the control record parser *)

(** A field value is text, or an integer after the [Size] coercion. *)
Inductive value :=
| VStr (s : string)
| VInt (n : Z).

(** The field mapping of one package: the dict [pkg] of
    [parse_package_metadata], later the [__dict__] of a [SimpleNamespace]. *)
Abbreviation fields := (gmap string value).

Module Parser.

(** [k, v = line.split(": ", 1)] *)
Definition split_header (line : string) : result (string * string) :=
  match PyStr.split_once line ": " with
  | Some kv => Ok kv
  | None => Raise ValueError
  end.

(** [if k == "Size": v = int(v)] *)
Definition coerce_size (k v : string) : result value :=
  if String.eqb k "Size" then
    match PyStr.int v with
    | Some n => Ok (VInt n)
    | None => Raise ValueError
    end
  else Ok (VStr v).

(** One popped continuation line: stripped, and empty when it is a dot. *)
Definition continuation (line : string) : string :=
  let line := PyStr.strip line in
  if String.eqb line "." then "" else line.

(** The value after the look-ahead: [v] itself without continuation
    lines, otherwise the join of [[v] + lines], which fails on an integer. *)
Definition folded (v : value) (exp_lines : option (list string))
  : result value :=
  match exp_lines with
  | None => Ok v
  | Some ls =>
      match v with
      | VStr s => Ok (VStr (PyStr.join (String PyStr.NL "") (s :: ls)))
      | VInt _ => Raise TypeError
      end
  end.

(** The inner loop: it pops the lines that start with a space into
    [exp_lines], which exists only once the look-ahead has found one, and
    hands [exp_lines] and the remaining lines to the rest [k] of the
    iteration. *)
Section Continuations.
Context {A : Type} (k : option (list string) -> list string -> A).

Fixpoint continuations (lines : list string)
    (exp_lines : option (list string)) : A :=
  match lines with
  | line :: lines' =>
      if PyStr.startswith line " "
      then continuations lines'
             (Some (default [] exp_lines ++ [continuation line])%list)
      else k exp_lines lines
  | [] => k exp_lines lines
  end.
End Continuations.

(** The loop [while lines]. *)
Fixpoint parse_lines (lines : list string) (pkg : fields) {struct lines}
  : result fields :=
  match lines with
  | [] => Ok pkg
  | line :: lines =>
      '(k, v) ← split_header line;
      v ← coerce_size k v;
      continuations
        (fun exp_lines lines =>
           v ← folded v exp_lines;
           parse_lines lines (<[PyStr.lower k := v]> pkg))
        lines None
  end.

Definition parse_package_metadata (package : string) : result fields :=
  parse_lines (PyStr.split (PyStr.strip_nl package) (String PyStr.NL "")) ∅.

(** Lines the inner loop pops, and a rest it leaves alone. *)
Definition continuation_lines (ls : list string) : Prop :=
  Forall (fun l => PyStr.startswith l " " = true) ls.

Definition starts_with_header (rest : list string) : Prop :=
  match rest with
  | [] => True
  | l :: _ => PyStr.startswith l " " = false
  end.

End Parser.

Definition nl : string := String PyStr.NL "".

(** ** The version ordering oracle

    [apt_pkg.version_compare] belongs to the APT bindings, not to this
    program; the resolver below takes it as a parameter.  [DebVersion.compare]
    is an executable instance used on concrete inputs. *)

Module DebVersion.

Definition isalpha (c : ascii) : bool :=
  let n := PyStr.code c in
  ((65 <=? n) && (n <=? 90) || (97 <=? n) && (n <=? 122))%N.

(** Weight of a character outside a digit run; [None] is the end. *)
Definition order (c : option ascii) : Z :=
  match c with
  | None => 0
  | Some c =>
      if PyStr.isdigit c then 0
      else if isalpha c then Z.of_N (PyStr.code c)
      else if Ascii.eqb c "~"%char then -1
      else Z.of_N (PyStr.code c) + 256
  end.

(** The non-digit prefixes: a difference, or the two rests at a digit run. *)
Fixpoint nondigit_cmp (a b : string) : Z + string * string :=
  match a, b with
  | String x a', String y b' =>
      if negb (PyStr.isdigit x) || negb (PyStr.isdigit y) then
        if (order (Some x) =? order (Some y))%Z then nondigit_cmp a' b'
        else inl (order (Some x) - order (Some y))%Z
      else inr (a, b)
  | String x _, EmptyString =>
      if PyStr.isdigit x then inr (a, b) else inl (order (Some x))
  | EmptyString, String y _ =>
      if PyStr.isdigit y then inr (a, b) else inl (- order (Some y))%Z
  | EmptyString, EmptyString => inr (a, b)
  end.

(** The digit runs, after their leading zeros: the first differing digit
    and the two rests. *)
Fixpoint digit_cmp (a b : string) (first_diff : Z) : Z * string * string :=
  match a, b with
  | String x a', String y b' =>
      if PyStr.isdigit x && PyStr.isdigit y then
        digit_cmp a' b'
          (if (first_diff =? 0)%Z
           then (Z.of_N (PyStr.code x) - Z.of_N (PyStr.code y))%Z
           else first_diff)
      else (first_diff, a, b)
  | _, _ => (first_diff, a, b)
  end.

Definition starts_digit (s : string) : bool :=
  match s with
  | String c _ => PyStr.isdigit c
  | EmptyString => false
  end.

Definition is_zero (c : ascii) : bool := Ascii.eqb c "0"%char.

Fixpoint fragment_cmp (fuel : nat) (a b : string) : Z :=
  match fuel with
  | O => 0
  | S fuel' =>
      match a, b with
      | EmptyString, EmptyString => 0
      | _, _ =>
          match nondigit_cmp a b with
          | inl d => d
          | inr (a1, b1) =>
              let '(first_diff, a2, b2) :=
                digit_cmp (PyStr.lstrip is_zero a1) (PyStr.lstrip is_zero b1) 0 in
              if starts_digit a2 then 1
              else if starts_digit b2 then -1
              else if negb (first_diff =? 0)%Z then first_diff
              else fragment_cmp fuel' a2 b2
          end
      end
  end.

Definition cmp_fragment (a b : string) : Z :=
  fragment_cmp (S (String.length a + String.length b)) a b.

(** Text before the last hyphen, and the revision after it. *)
Fixpoint split_revision (s : string) : string * option string :=
  match s with
  | EmptyString => (EmptyString, None)
  | String c s' =>
      match split_revision s' with
      | (u, Some r) => (String c u, Some r)
      | (u, None) =>
          if Ascii.eqb c "-"%char then (EmptyString, Some u)
          else (String c u, None)
      end
  end.

(** epoch, upstream version, revision *)
Definition parts (v : string) : string * string * string :=
  let '(epoch, rest) :=
    match PyStr.split_once v ":" with
    | Some (e, r) => (e, r)
    | None => (EmptyString, v)
    end in
  let '(upstream, revision) := split_revision rest in
  (epoch, upstream, default EmptyString revision).

Definition compare (v1 v2 : string) : Z :=
  let '(e1, u1, r1) := parts v1 in
  let '(e2, u2, r2) := parts v2 in
  let e := cmp_fragment e1 e2 in
  if negb (e =? 0)%Z then e
  else let u := cmp_fragment u1 u2 in
       if negb (u =? 0)%Z then u else cmp_fragment r1 r2.

End DebVersion.

(** ** The version resolver and the catalog *)

(** Attribute access on a [SimpleNamespace] holding the parsed fields. *)
Definition getattr (o : fields) (name : string) : result value :=
  match o !! name with
  | Some v => Ok v
  | None => Raise AttributeError
  end.

(** Where the program needs text: a version handed to the comparison, a
    package name used as a key.  The parser stores integers under [size]
    only. *)
Definition as_text (v : value) : result string :=
  match v with
  | VStr s => Ok s
  | VInt _ => Raise TypeError
  end.

Section Resolver.
(** [apt_pkg.version_compare] *)
Variable version_compare : string -> string -> Z.

Definition get_larger_version (pkg1 pkg2 : fields) : result fields :=
  v1 ← getattr pkg1 "version";
  v2 ← getattr pkg2 "version";
  s1 ← as_text v1;
  s2 ← as_text v2;
  let res := version_compare s1 s2 in
  if (res >=? 1)%Z then Ok pkg1 else Ok pkg2.

(** The body of the loop over [package_data] in [main] of [aptparser.py]:
    [store] is [packages[name] = ...]. *)
Definition store (packages : gmap string fields) (name : string)
    (package : fields) : result (gmap string fields) :=
  match packages !! name with
  | Some existing =>
      larger ← get_larger_version existing package;
      Ok (<[name := larger]> packages)
  | None => Ok (<[name := package]> packages)
  end.

Definition add_package (packages : gmap string fields) (package : string)
  : result (gmap string fields) :=
  if String.eqb package "" then Ok packages
  else
    pkg ← Parser.parse_package_metadata package;
    name ← getattr pkg "package";
    name ← as_text name;
    store packages name pkg.

Fixpoint add_packages (packages : gmap string fields)
    (package_data : list string) : result (gmap string fields) :=
  match package_data with
  | [] => Ok packages
  | package :: rest =>
      packages' ← add_package packages package;
      add_packages packages' rest
  end.

(** The same loop in [apt-mirror.py]: the parser is inlined there, and the
    lookup of the name sits in a [try] whose handler only prints, so the
    variable [name] keeps the value of an earlier iteration, or is unbound
    ([None]) when there was none. *)
Definition mirror_add_package
    (st : gmap string fields * option string) (package : string)
  : result (gmap string fields * option string) :=
  let '(packages, name) := st in
  if String.eqb package "" then Ok st
  else
    pkg ← Parser.parse_package_metadata package;
    let name' :=
      match pkg !! "package" with
      | Some v => Some v
      | None => VStr <$> name
      end in
    match name' with
    | None => Raise NameError
    | Some n =>
        n ← as_text n;
        packages' ← store packages n pkg;
        Ok (packages', Some n)
    end.

Fixpoint mirror_add_packages
    (st : gmap string fields * option string) (package_data : list string)
  : result (gmap string fields * option string) :=
  match package_data with
  | [] => Ok st
  | package :: rest =>
      st' ← mirror_add_package st package;
      mirror_add_packages st' rest
  end.

End Resolver.

(** ** The file system and the network *)

Inductive node :=
| File (data : string)
| Dir.

Record response := {
  status_code : Z;
  content : string;                 (* the body *)
  content_length : option string    (* the header, when present *)
}.

(** The state the program acts on: the file system, and the log of the
    URLs requested so far. *)
Record world := {
  fs : gmap string node;
  requests : list string
}.

(** State and exceptions: the state survives a raise. *)
Definition io (A : Type) : Type := world -> result A * world.

Global Instance io_ret : MRet io := fun A a w => (Ok a, w).
Global Instance io_bind : MBind io := fun A B f m w =>
  match m w with
  | (Ok a, w') => f a w'
  | (Raise e, w') => (Raise e, w')
  end.

Definition lift {A} (r : result A) : io A := fun w => (r, w).
Definition raise {A} (e : exn) : io A := lift (Raise e).

Module Os.

(** The keys of [fs] are paths in normal form: parts separated by single
    slashes, after at most one leading slash, none of them empty, [.] or
    [..].  On such a path the functions below look up what the program
    finds there; what a path in another form refers to depends on the
    directories on the way and is not modelled. *)
Definition proper (part : string) : bool :=
  negb (String.eqb part "" || String.eqb part "." || String.eqb part "..").

Definition plain (path : string) : bool :=
  match PyStr.split path "/" with
  | "" :: part :: parts => forallb proper (part :: parts)
  | parts => forallb proper parts
  end.

(** The text after the last slash. *)
Definition basename (path : string) : string :=
  default EmptyString (last (PyStr.split path "/")).

(** [os.path.join(a, b)] *)
Definition join2 (a b : string) : string :=
  if PyStr.startswith b "/" then b
  else if String.eqb a "" || PyStr.endswith a "/" then a +:+ b
  else a +:+ "/" +:+ b.

(** [os.path.join(a, *ps)] *)
Definition join (a : string) (ps : list string) : string :=
  fold_left join2 ps a.

Definition isfile (path : string) : io bool := fun w =>
  (Ok match fs w !! path with Some (File _) => true | _ => false end, w).

Definition isdir (path : string) : io bool := fun w =>
  (Ok match fs w !! path with Some Dir => true | _ => false end, w).

(** [open(path).read()] *)
Definition read (path : string) : io string := fun w =>
  match fs w !! path with
  | Some (File data) => (Ok data, w)
  | _ => (Raise OSError, w)
  end.

(** [os.path.isfile(path) and os.stat(path).st_size]: the size in bytes
    of a regular file, [None] when there is none at [path]. *)
Definition file_size (path : string) : io (option Z) := fun w =>
  (Ok match fs w !! path with
      | Some (File data) => Some (Z.of_nat (String.length data))
      | _ => None
      end, w).

(** The name [f] when [path] is [d/f] for the directory [d]. *)
Definition child_of (d path : string) : option string :=
  let d := if PyStr.endswith d "/" then d else d +:+ "/" in
  if PyStr.startswith path d then
    let f := PyStr.drop (String.length d) path in
    match f, PyStr.split_once f "/" with
    | String _ _, None => Some f
    | _, _ => None
    end
  else None.

(** [os.listdir(d)] *)
Definition listdir (d : string) : io (list string) := fun w =>
  (Ok (omap (fun '(path, _) => child_of d path) (map_to_list (fs w))), w).

(** The proper prefixes of a path that end before a slash: its
    ancestors, outermost first. *)
Fixpoint ancestors (s : string) : list string :=
  match s with
  | EmptyString => []
  | String c s' =>
      let r := String c <$> ancestors s' in
      if Ascii.eqb c "/"%char then EmptyString :: r else r
  end.

(** [Path(target).parent] of a path in normal form: the text before the
    last slash, empty for the directory the path starts from. *)
Definition parent (s : string) : string :=
  default EmptyString (last (ancestors s)).

Definition mkdir (d : string) : io unit := fun w =>
  match fs w !! d with
  | Some Dir => (Ok tt, w)
  | Some (File _) => (Raise OSError, w)
  | None =>
      if String.eqb d "" then (Ok tt, w)
      else (Ok tt, {| fs := <[d := Dir]> (fs w); requests := requests w |})
  end.

Fixpoint mkdirs (ds : list string) : io unit :=
  match ds with
  | [] => mret tt
  | d :: ds' => _ ← mkdir d; mkdirs ds'
  end.

(** [mkdir(parents=True, exist_ok=True)] on [d]: the missing ancestors are
    created first; a regular file in the way is an error. *)
Definition mkdir_parents (d : string) : io unit :=
  mkdirs (ancestors d ++ [d])%list.

(** [open(path, "wb")] at the moment it is opened: the file exists and is
    empty.  A path that names a directory, by what is there or by ending in
    a slash or in a dot part, cannot be opened for writing, and neither can
    a path whose parent is no directory; the empty parent is the directory
    the path starts from. *)
Definition create (path : string) : io unit := fun w =>
  if proper (basename path) then
    match fs w !! path with
    | Some Dir => (Raise OSError, w)
    | _ =>
        if String.eqb (parent path) ""
           || match fs w !! parent path with Some Dir => true | _ => false end
        then (Ok tt, {| fs := <[path := File ""]> (fs w);
                        requests := requests w |})
        else (Raise OSError, w)
    end
  else (Raise OSError, w).

(** [output.write(chunk)] *)
Definition append (path chunk : string) : io unit := fun w =>
  match fs w !! path with
  | Some (File data) =>
      (Ok tt, {| fs := <[path := File (data +:+ chunk)]> (fs w);
                 requests := requests w |})
  | _ => (Raise OSError, w)
  end.

End Os.

(** ** The index fetcher *)

Definition LISTS_ROOT : string := "/var/lib/apt/lists".

(** [URL_MATCHER.match(packages_file).group(1).replace("/", "_")] joined to
    the cache root; no match, and so no group, is an [AttributeError]. *)
Definition local_cache_path (packages_file : string) : result string :=
  match Re.rmatch URL_MATCHER packages_file with
  | Some (g, _) =>
      match g !! "1" with
      | Some name =>
          Ok (Os.join LISTS_ROOT [PyStr.replace_char "/" "_" name])
      | None => Raise AttributeError
      end
  | None => Raise AttributeError
  end.

Definition packages_url (source_url release component : string) : string :=
  Os.join source_url ["dists"; release; component; "binary-amd64/Packages.gz"].

(** The list comprehension building [component_data]. *)
Definition stanzas (data source_url : string) : list string :=
  (fun d => PyStr.strip_nl d +:+ nl +:+ "uri: " +:+ source_url)
    <$> filter (fun d => d ≠ "") (PyStr.split (PyStr.strip_nl data) (nl +:+ nl)).

Section Fetcher.
(** [print], which is [console.print] of [rich], [requests.get] and
    [gzip.decompress(...).decode()]. *)
Variable console_print : string -> result unit.
Variable http_get : string -> result response.
Variable gunzip : string -> result string.

Definition requests_get (url : string) : io response := fun w =>
  (http_get url, {| fs := fs w; requests := (requests w ++ [url])%list |}).

(** The index text of one component and the [status] shown for it: from
    the cache file when there is one, from the network otherwise. *)
Definition fetch_index (packages_file : string) : io (string * string) :=
  local_file_path ← lift (local_cache_path packages_file);
  cached ← Os.isfile local_file_path;
  if cached : bool then
    data ← Os.read local_file_path;
    mret (data, "[cyan]Cache[/]")
  else
    req ← requests_get packages_file;
    if (status_code req =? 200)%Z then
      data ← lift (gunzip (content req));
      mret (data, "[green]Fetch[/]")
    else
      _ ← lift (console_print
                  ("Got status code " +:+ PyStr.str_of_int (status_code req)
                   +:+ " from URL " +:+ packages_file));
      raise ValueError.

(** [len(l)] inside an f-string. *)
Definition str_of_len {A} (l : list A) : string :=
  PyStr.str_of_int (Z.of_nat (length l)).

(** The loop over [source_components]. *)
Fixpoint fetch_components (source_url source_release : string)
    (source_components : list string) (release_data : list string)
  : io (list string) :=
  match source_components with
  | [] => mret release_data
  | source_component :: rest =>
      '(data, status) ← fetch_index
               (packages_url source_url source_release source_component);
      let component_data := stanzas data source_url in
      _ ← lift (console_print
                  (status +:+ " " +:+ source_release +:+ "/"
                   +:+ source_component +:+ ": "
                   +:+ str_of_len component_data +:+ " entries"));
      fetch_components source_url source_release rest
        (release_data ++ component_data)%list
  end.

Definition group (g : Re.groups) (name : string) : string :=
  default "" (g !! name).

Definition get_packages_from_deb_line (deb_line : string)
  : io (list string) :=
  let deb_line := Re.sub_empty COMMENT_PAT deb_line in
  match Re.rmatch SOURCES_LINE_PAT deb_line with
  | None => raise DebSrcLineUnparseable
  | Some (results, _) =>
      if String.eqb (group results "source_type") "deb-src"
      then raise DebSrcNotImplemented
      else
        let source_release := group results "release" in
        let source_components :=
          Re.split SPACES_PAT (group results "components") in
        release_data ← fetch_components (group results "url") source_release
                         source_components [];
        _ ← (if Nat.eqb (length source_components) 1 then mret tt
             else lift (console_print
                          (source_release +:+ ": "
                           +:+ str_of_len release_data +:+ " entries")));
        mret release_data
  end.

(** The messages of the two handlers in [main]. *)
Definition unparseable_message (deb_line : string) : string :=
  "[red]ERR[/] Could not parse line " +:+ PyStr.repr deb_line
  +:+ ", skipping".

Definition not_implemented_message (deb_line : string) : string :=
  "Source repository parsing is not implemented, skipping "
  +:+ PyStr.repr deb_line.

(** The loop over [deb_lines] in [main]: the two declaration-line
    exceptions are handled by printing a message, after which the loop goes
    on; any other exception propagates, and so does one the [print] of a
    handler raises. *)
Fixpoint process_deb_lines (deb_lines : list string)
    (package_data : list string) : io (list string) :=
  match deb_lines with
  | [] => mret package_data
  | deb_line :: rest => fun w =>
      match get_packages_from_deb_line deb_line w with
      | (Ok release_data, w') =>
          process_deb_lines rest (package_data ++ release_data)%list w'
      | (Raise DebSrcLineUnparseable, w') =>
          (_ ← lift (console_print (unparseable_message deb_line));
           process_deb_lines rest package_data) w'
      | (Raise DebSrcNotImplemented, w') =>
          (_ ← lift (console_print (not_implemented_message deb_line));
           process_deb_lines rest package_data) w'
      | (Raise e, w') => (Raise e, w')
      end
  end.

End Fetcher.

(** ** The parsing path of [main] *)

(** A declaration line that [get_packages_from_deb_line] refuses: after the
    comment is removed it does not match [SOURCES_LINE_PAT], or its type is
    [deb-src]. *)
Definition skipped (deb_line : string) : Prop :=
  match Re.rmatch SOURCES_LINE_PAT (Re.sub_empty COMMENT_PAT deb_line) with
  | None => True
  | Some (results, _) => group results "source_type" = "deb-src"
  end.

(** The message [main] prints for a refused line. *)
Definition refusal_message (deb_line : string) : string :=
  match Re.rmatch SOURCES_LINE_PAT (Re.sub_empty COMMENT_PAT deb_line) with
  | None => unparseable_message deb_line
  | Some _ => not_implemented_message deb_line
  end.

(** From the declaration lines to the catalog: the two loops of [main]. *)
Definition build_catalog (version_compare : string -> string -> Z)
    (console_print : string -> result unit)
    (http_get : string -> result response) (gunzip : string -> result string)
    (deb_lines : list string) : io (gmap string fields) :=
  package_data ← process_deb_lines console_print http_get gunzip deb_lines [];
  lift (add_packages version_compare ∅ package_data).

(** ** The source list resolver *)

(** The loop over [full_sources_lines] in [get_deb_lines]. *)
Fixpoint filter_sources_lines (full_sources_lines : list string)
  : list string :=
  match full_sources_lines with
  | [] => []
  | sources_line :: rest =>
      let sources_line_filtered :=
        PyStr.strip (Re.sub_empty SOURCES_LINE_FILTER_PAT sources_line) in
      if PyStr.startswith sources_line_filtered "deb-src"
      then filter_sources_lines rest
      else if PyStr.startswith sources_line_filtered "deb"
      then sources_line_filtered :: filter_sources_lines rest
      else filter_sources_lines rest
  end.

Section Sources.
Variable console_print : string -> result unit.

(** What one entry of [package_sources] contributes to [package_files]. *)
Definition source_files (source : string) : io (list string) :=
  is_file ← Os.isfile source;
  if is_file : bool then
    _ ← lift (console_print ("Adding file " +:+ source));
    mret [source]
  else
    is_dir ← Os.isdir source;
    if is_dir : bool then
      _ ← lift (console_print ("Adding directory " +:+ source));
      names ← Os.listdir source;
      mret ((fun f => Os.join source [f]) <$> names)
    else mret [].

Fixpoint collect_package_files (package_sources : list string)
  : io (list string) :=
  match package_sources with
  | [] => mret []
  | source :: rest =>
      here ← source_files source;
      more ← collect_package_files rest;
      mret (here ++ more)%list
  end.

Fixpoint read_lines (listfiles : list string) : io (list string) :=
  match listfiles with
  | [] => mret []
  | listfile :: rest =>
      text ← Os.read listfile;
      more ← read_lines rest;
      mret (PyStr.splitlines text ++ more)%list
  end.

Definition get_deb_lines (package_sources : list string) : io (list string) :=
  package_files ← collect_package_files package_sources;
  let listfiles := filter (fun lf => PyStr.endswith lf ".list" = true) package_files in
  full_sources_lines ← read_lines listfiles;
  match filter_sources_lines full_sources_lines with
  | [] => raise InvalidListException
  | packagelines => mret packagelines
  end.

End Sources.

Definition SOURCES : list string :=
  ["/etc/apt/sources.list"; "/etc/apt/sources.list.d"].

(** A line of a list file that the loop of [get_deb_lines] passes over:
    once filtered and stripped it starts with [deb-src], or does not start
    with [deb]. *)
Definition dropped (sources_line : string) : Prop :=
  let sources_line_filtered :=
    PyStr.strip (Re.sub_empty SOURCES_LINE_FILTER_PAT sources_line) in
  PyStr.startswith sources_line_filtered "deb-src" = true
  \/ PyStr.startswith sources_line_filtered "deb" = false.

(** ** The download driver *)

(** A value inside an f-string. *)
Definition format_value (v : value) : string :=
  match v with
  | VStr s => s
  | VInt n => PyStr.str_of_int n
  end.

(** [st_size == package.size]: an integer never equals text. *)
Definition size_matches (st_size : Z) (size : value) : bool :=
  match size with
  | VInt n => (st_size =? n)%Z
  | VStr _ => false
  end.

Definition name_le (a b : string * fields) : Prop :=
  String.leb a.1 b.1 = true.

Global Instance name_le_dec a b : Decision (name_le a b).
Proof. unfold name_le. apply _. Defined.

(** The records in the order of [sorted(packages.keys())]. *)
Definition sorted_items (packages : gmap string fields)
  : list (string * fields) :=
  merge_sort name_le (map_to_list packages).

Section Download.
Variable http_get : string -> result response.

Definition download_url (package : fields) : result string :=
  uri ← getattr package "uri";
  filename ← getattr package "filename";
  Ok (format_value uri +:+ "/" +:+ format_value filename).

Definition download_target (download : string) (package : fields)
  : result string :=
  filename ← getattr package "filename";
  Ok (download +:+ "/" +:+ format_value filename).

(** The test guarding [continue]; [package.size] is read only when a
    regular file is at [target]. *)
Definition already_downloaded (target : string) (package : fields)
  : io bool :=
  st_size ← Os.file_size target;
  match st_size with
  | None => mret false
  | Some n =>
      size ← lift (getattr package "size");
      mret (size_matches n size)
  end.

Definition parse_length (header : option string) : result Z :=
  match header with
  | None => Raise TypeError
  | Some s =>
      match PyStr.int s with
      | Some n => Ok n
      | None => Raise ValueError
      end
  end.

(** The body of the loop over the sorted package names.  The chunks of
    the response are written one after the other, so the file ends up
    holding the body. *)
Definition download_package (download : string) (package : fields)
  : io unit :=
  url ← lift (download_url package);
  target ← lift (download_target download package);
  skip ← already_downloaded target package;
  if skip : bool then mret tt
  else
    _ ← Os.mkdir_parents (Os.parent target);
    req ← requests_get http_get url;
    _ ← Os.create target;
    _ ← lift (parse_length (content_length req));
    Os.append target (content req).

Fixpoint download_each (download : string)
    (items : list (string * fields)) : io unit :=
  match items with
  | [] => mret tt
  | (_, package) :: rest =>
      _ ← download_package download package;
      download_each download rest
  end.

Definition download_all (download : string)
    (packages : gmap string fields) : io unit :=
  download_each download (sorted_items packages).

(** The loop of [apt-mirror.py]: the same body over [packages.items()],
    in the order of the dict, with the fixed output directory. *)
Definition output_dir : string := "/tmp/apt-download".

Definition mirror_download_all (packages : gmap string fields) : io unit :=
  download_each output_dir (map_to_list packages).

End Download.

(** The target of [package] under [download] is a regular file in [w]
    whose size in bytes is the integer the record holds under [size]. *)
Definition already_there (download : string) (w : world)
    (package : fields) : Prop :=
  exists uri filename data,
    package !! "uri" = Some uri
    /\ package !! "filename" = Some filename
    /\ fs w !! (download +:+ "/" +:+ format_value filename)
       = Some (File data)
    /\ package !! "size" = Some (VInt (Z.of_nat (String.length data))).

(** ** The JSON snapshot *)

#[warnings="-register-all"]
Inductive json :=
| JString (s : string)
| JNumber (n : Z)
| JObject (members : gmap string json).

Definition json_of_value (v : value) : json :=
  match v with
  | VStr s => JString s
  | VInt n => JNumber n
  end.

(** A dict of field values as the encoder writes it. *)
Definition json_of_fields (d : fields) : json :=
  JObject (json_of_value <$> d).

Module NamespaceEncoder.

(** [default]: the [__dict__] of the namespace gets the key [__class__],
    and that same dict is what is encoded. *)
Definition default (o : fields) : fields :=
  <["__class__" := VStr "SimpleNamespace"]> o.

End NamespaceEncoder.

(** [json.dump(packages, f, cls=NamespaceEncoder)]: the document written,
    and the catalog afterwards.  Every value of [packages] is a namespace,
    which the encoder hands to [default]. *)
Definition json_dump (packages : gmap string fields)
  : json * gmap string fields :=
  let packages' := NamespaceEncoder.default <$> packages in
  (JObject (json_of_fields <$> packages'), packages').

(** What [json.load] builds has the shape of the document: an object
    becomes a plain dict, a string a [str], a number an [int].  No
    [object_hook] is given, so no namespace is rebuilt. *)
Inductive pyobj :=
| PStr (s : string)
| PInt (n : Z)
| PDict (items : gmap string json)
| PNamespace (d : fields).

(** [json.load(args.input_file)] on a document. *)
Definition json_load (doc : json) : pyobj :=
  match doc with
  | JString s => PStr s
  | JNumber n => PInt n
  | JObject o => PDict o
  end.

(** [packages[name]] after [json.load], and the field mapping it holds. *)
Definition loaded_item (packages : pyobj) (name : string) : option pyobj :=
  match packages with
  | PDict items => json_load <$> items !! name
  | _ => None
  end.

Definition loaded_fields (packages : pyobj) (name : string)
  : option (gmap string json) :=
  match loaded_item packages name with
  | Some (PDict d) => Some d
  | _ => None
  end.

(** The field mapping of [packages[name]] in the catalog built by the
    parsing path, as plain data. *)
Definition catalog_fields (packages : gmap string fields) (name : string)
  : option (gmap string json) :=
  (fun d : fields => json_of_value <$> d) <$> packages !! name.

(** [package.package], the first thing [main] asks of every value of the
    catalog on either path: a dict has no such attribute. *)
Definition package_attr (o : pyobj) : result value :=
  match o with
  | PNamespace d => getattr d "package"
  | _ => Raise AttributeError
  end.

(** ** The cache path in the words of the specification *)

(** The URL without its scheme. *)
Definition strip_scheme (url : string) : string :=
  if PyStr.startswith url "https://" then PyStr.drop 8 url
  else if PyStr.startswith url "http://" then PyStr.drop 7 url
  else url.

(** The cache root joined with the URL text obtained by stripping the
    scheme and replacing every slash by an underscore. *)
Definition spec_cache_path (url : string) : string :=
  LISTS_ROOT +:+ "/" +:+ PyStr.replace_char "/" "_" (strip_scheme url).

(** ** The rest of [main] *)

(** [len(v)] *)
Definition py_len (v : value) : result nat :=
  match v with
  | VStr s => Ok (String.length s)
  | VInt _ => Raise TypeError
  end.

(** [max(l)] *)
Definition py_max (l : list nat) : result nat :=
  match l with
  | [] => Raise ValueError
  | x :: l' => Ok (foldr Nat.max x l')
  end.

(** A list comprehension whose element expression can raise. *)
Fixpoint each {A B} (f : A -> result B) (l : list A) : result (list B) :=
  match l with
  | [] => Ok []
  | a :: l' =>
      b ← f a;
      bs ← each f l';
      Ok (b :: bs)
  end.

(** [sum(sizes)]: the additions start from the integer 0. *)
Fixpoint py_sum (acc : Z) (sizes : list value) : result Z :=
  match sizes with
  | [] => Ok acc
  | VInt n :: rest => py_sum (acc + n) rest
  | VStr _ :: _ => Raise TypeError
  end.

(** [len(package.<name>)] *)
Definition attr_len (name : string) (package : fields) : result nat :=
  v ← getattr package name;
  py_len v.

(** [pkg_len], [ver_len] and the total size, computed from
    [packages.values()] before anything is downloaded or printed. *)
Definition totals (packages : gmap string fields) : result (nat * nat * Z) :=
  let values := (map_to_list packages).*2 in
  pkg_lens ← each (attr_len "package") values;
  pkg_len ← py_max pkg_lens;
  ver_lens ← each (attr_len "version") values;
  ver_len ← py_max ver_lens;
  sizes ← each (fun package => getattr package "size") values;
  total ← py_sum 0 sizes;
  Ok (pkg_len, ver_len, total).

(** The same first step on what [json.load] returned: [packages.values()]
    needs a dict, and [package.package] an attribute. *)
Definition loaded_values (packages : pyobj) : result (list pyobj) :=
  match packages with
  | PDict items => Ok (json_load <$> (map_to_list items).*2)
  | _ => Raise AttributeError
  end.

Definition loaded_pkg_len (packages : pyobj) : result nat :=
  values ← loaded_values packages;
  pkg_lens ← each (fun package => v ← package_attr package; py_len v) values;
  py_max pkg_lens.

(** The call of [get_deb_lines] in [main]: the default sources when none
    are given, and exit status 255 for a list without declaration lines. *)
Definition main_deb_lines (console_print : string -> result unit)
    (sources : list string) : io (list string) :=
  fun w =>
    match get_deb_lines console_print
            (match sources with [] => SOURCES | _ => sources end) w
    with
    | (Raise InvalidListException, w') => (Raise (SystemExit 255), w')
    | r => r
    end.

(** The parsing path of [main] up to the totals. *)
Definition main_parse (version_compare : string -> string -> Z)
    (console_print : string -> result unit)
    (http_get : string -> result response) (gunzip : string -> result string)
    (sources : list string) : io (gmap string fields * (nat * nat * Z)) :=
  deb_lines ← main_deb_lines console_print sources;
  packages ← build_catalog version_compare console_print http_get gunzip
               deb_lines;
  t ← lift (totals packages);
  mret (packages, t).

(** ** Helpers outside the main path *)

(** [filter_deb_line] of [aptparser.py]: [line[:line.index("#")]] is the
    text before the first hash sign, and [index] raises [ValueError], which
    is handled, when there is none. *)
Definition filter_deb_line (line : string) : result string :=
  if PyStr.startswith line "deb" then
    match PyStr.split_once line "#" with
    | Some (before, _) => Ok (PyStr.strip before)
    | None => Ok (PyStr.strip line)
    end
  else Raise DebSrcLineUnparseable.

(** [filter_deb_lines] of [apt-mirror.py]: the same without the [else], so
    a line that does not start with [deb] gives [None]. *)
Definition filter_deb_lines (line : string) : option string :=
  if PyStr.startswith line "deb" then
    match PyStr.split_once line "#" with
    | Some (before, _) => Some (PyStr.strip before)
    | None => Some (PyStr.strip line)
    end
  else None.

(** [copy_url]: the request, the file opened for writing, the length
    header, and then [progress.update], where [progress] is a name bound
    inside [main] only. *)
Definition copy_url (http_get : string -> result response)
    (url path : string) : io unit :=
  req ← requests_get http_get url;
  _ ← Os.create path;
  _ ← lift (parse_length (content_length req));
  raise NameError.

(** [get_files_from_deb_line]: the same first steps as
    [get_packages_from_deb_line], then one request for the [InRelease] file
    of the release, whose decoded text is not used. *)
Definition get_files_from_deb_line (http_get : string -> result response)
    (decode : string -> result string) (deb_line : string) : io unit :=
  let deb_line := Re.sub_empty COMMENT_PAT deb_line in
  match Re.rmatch SOURCES_LINE_PAT deb_line with
  | None => raise DebSrcLineUnparseable
  | Some (results, _) =>
      if String.eqb (group results "source_type") "deb-src"
      then raise DebSrcNotImplemented
      else
        let inrelease_file :=
          Os.join (group results "url")
            ["dists"; group results "release"; "InRelease"] in
        req ← requests_get http_get inrelease_file;
        if (status_code req =? 200)%Z
        then _ ← lift (decode (content req)); mret tt
        else raise ValueError
  end.

(** ** What a run may touch *)

(** The URL of a package index. *)
Definition index_url (url : string) : Prop :=
  PyStr.endswith url "binary-amd64/Packages.gz" = true.

(** From [w] to [w'] no file was created or changed, and every request
    made satisfies [P]. *)
Definition reads_only (P : string -> Prop) (w w' : world) : Prop :=
  fs w' = fs w
  /\ exists urls, requests w' = (requests w ++ urls)%list /\ Forall P urls.

(** A text without a hash sign. *)
Definition no_hash (s : string) : Prop :=
  PyStr.all_chars (Re.none_of "#"%char) s = true.

(** A line the parser can take: a continuation line, or a line with the
    separator of a header. *)
Definition accepted (l : string) : Prop :=
  PyStr.startswith l " " = true
  \/ exists k v, PyStr.split_once l ": " = Some (k, v).

(** ** The fields of a stanza *)







(** ** Sample inputs *)

Module Samples.

(** Stanzas as the index fetcher hands them on. *)
Definition stanza (fields : list string) : string := PyStr.join nl fields.

Definition first_a : string :=
  stanza ["Package: a"; "Version: 1.0"; "Filename: pool/a_first.deb";
          "uri: http://example.test/debian"].
Definition second_a : string :=
  stanza ["Package: a"; "Version: 1.0"; "Filename: pool/a_second.deb";
          "uri: http://example.test/debian"].
Definition nameless : string :=
  stanza ["Version: 2.0"; "Filename: pool/x.deb";
          "uri: http://example.test/debian"].
Definition only_b : string :=
  stanza ["Package: b"; "Version: 1.0"; "Filename: pool/b.deb";
          "uri: http://example.test/debian"].

Definition record_of (package : string) : fields :=
  match Parser.parse_package_metadata package with
  | Ok pkg => pkg
  | Raise _ => ∅
  end.

(** A catalog of one record. *)
Definition catalog_a : gmap string fields :=
  {[ "a" := {[ "package" := VStr "a"; "version" := VStr "1.0";
               "uri" := VStr "http://example.test/debian" ]} ]}.

(** A catalog of one record whose target is on disk with the recorded
    size, and a network that is down. *)
Definition downloaded : gmap string fields :=
  {[ "a" := {[ "package" := VStr "a"; "version" := VStr "1.0";
               "uri" := VStr "http://example.test/debian";
               "filename" := VStr "pool/a.deb"; "size" := VInt 3 ]} ]}.

Definition downloaded_world : world :=
  {| fs := {[ "/out/pool/a.deb" := File "abc" ]}; requests := [] |}.

Definition no_network (url : string) : result response := Raise OSError.

(** A console that refuses a text holding the closing tag [[/x]], which
    no text of the samples opens, and prints every other text. *)
Definition console (text : string) : result unit :=
  match PyStr.split_once text "[/x]" with
  | Some _ => Raise MarkupError
  | None => Ok tt
  end.

(** An index of two stanzas, the second with a [uri] field of its own, and
    a world that holds it in the cache. *)
Definition index_text : string :=
  stanza ["Package: a"; "Version: 1.0"; ""; "Package: b"; "Version: 2.0";
          "uri: elsewhere"; ""].

Definition cached_world : world :=
  {| fs := {[ "/var/lib/apt/lists/example.test_debian_dists_bookworm_main_binary-amd64_Packages"
                := File index_text ]};
     requests := [] |}.

(** A source list whose only declaration names no http URL, and a server
    that has no index. *)
Definition cdrom_world : world :=
  {| fs := {[ "/etc/apt/sources.list"
                := File ("deb cdrom:/media bookworm main" +:+ nl) ]};
     requests := [] |}.

Definition not_found (url : string) : result response :=
  Ok {| status_code := 404; content := "Not Found";
        content_length := Some "9" |}.

(** A source list with a commented declaration and a source declaration,
    and the same text under a name without the [.list] suffix. *)
Definition list_text : string :=
  "deb http://example.test/debian bookworm main # local" +:+ nl
  +:+ "deb-src http://example.test/debian bookworm main" +:+ nl.

Definition listed_world : world :=
  {| fs := {[ "/etc/apt/sources.list" := File list_text ]};
     requests := [] |}.

Definition unsuffixed_world : world :=
  {| fs := {[ "/etc/apt/sources.list.save" := File list_text ]};
     requests := [] |}.

(** A record to download, and the world once the directories of its
    target exist under [/out]. *)
Definition deb_a : fields :=
  {[ "package" := VStr "a"; "version" := VStr "1.0";
     "uri" := VStr "http://example.test/debian";
     "filename" := VStr "pool/a.deb"; "size" := VInt 3 ]}.

Definition empty_world : world := {| fs := ∅; requests := [] |}.

Definition out_world : world :=
  {| fs := {[ "/out" := Dir; "/out/pool" := Dir ]}; requests := [] |}.

(** A server that answers without a length header. *)
Definition no_length (url : string) : result response :=
  Ok {| status_code := 200; content := "abc"; content_length := None |}.

End Samples.

(** * Properties *)

#[local] Arguments String.append !s1 s2 : simpl nomatch.

(** ** Facts about the string primitives *)

Module PyStrFacts.
Import PyStr.

Lemma str_app_assoc (a b c : string) : (a +:+ b) +:+ c = a +:+ (b +:+ c).
Proof. induction a as [|x a IH]; simpl; [done | by f_equal]. Qed.

Lemma all_chars_app p a b :
  all_chars p (a +:+ b) = all_chars p a && all_chars p b.
Proof.
  induction a as [|x a IH]; simpl; [done|].
  rewrite IH. by rewrite andb_assoc.
Qed.

Lemma prefix_nl c s :
  String.prefix (String NL "") (String c s) = is_nl c.
Proof.
  unfold is_nl.
  change (String.prefix (String NL "") (String c s))
    with (if ascii_dec NL c then String.prefix "" s else false).
  destruct (ascii_dec NL c) as [<-|Hne].
  - rewrite Ascii.eqb_refl. by destruct s.
  - symmetry. apply Ascii.eqb_neq. congruence.
Qed.

Lemma rstrip_id p s :
  all_chars (fun c => negb (p c)) s = true -> rstrip p s = s.
Proof.
  induction s as [|c s IH]; simpl; [done|].
  intros [Hc Hs]%andb_true_iff. rewrite (IH Hs).
  apply negb_true_iff in Hc. rewrite Hc. by destruct s.
Qed.

Lemma rstrip_app_keep p a b :
  b <> "" -> rstrip p b = b -> rstrip p (a +:+ b) = a +:+ b.
Proof.
  intros Hb Hr. induction a as [|c a IH]; simpl; [done|].
  rewrite IH. destruct (a +:+ b) eqn:E; [|done].
  destruct a; simpl in E; [congruence | discriminate].
Qed.

Lemma lstrip_app p a b :
  match b with String c _ => p c = false | EmptyString => True end ->
  lstrip p (a +:+ b) = lstrip p a +:+ b.
Proof.
  intros Hb. induction a as [|c a IH]; simpl.
  - destruct b as [|c b]; [done|]. simpl. by rewrite Hb.
  - destruct (p c); [done | done].
Qed.

(** After stripping leading newlines, a text that ended in a newline
    still does, unless nothing is left. *)
Lemma lstrip_nl_end x :
  lstrip is_nl (x +:+ String NL "") = ""
  \/ exists z, lstrip is_nl (x +:+ String NL "") = z +:+ String NL "".
Proof.
  induction x as [|c x IH]; simpl.
  - left. done.
  - destruct (is_nl c); [done|]. right. by exists (String c x).
Qed.

Lemma split_cons c s :
  split (String c s) (String NL "") =
    if is_nl c then "" :: split s (String NL "")
    else match split s (String NL "") with
         | p :: ps => String c p :: ps
         | [] => [String c ""]
         end.
Proof.
  unfold split. cbn [split_go]. rewrite prefix_nl. cbn [String.length Nat.sub].
  destruct (is_nl c); by destruct (split_go (String NL "") s 0).
Qed.

Lemma split_no_nl s : no_nl s -> split s (String NL "") = [s].
Proof.
  unfold no_nl. induction s as [|c s IH]; [done|].
  simpl. intros [Hc Hs]%andb_true_iff. rewrite split_cons.
  apply negb_true_iff in Hc. rewrite Hc. by rewrite (IH Hs).
Qed.

Lemma split_app_nl a b :
  split (a +:+ String NL "" +:+ b) (String NL "") =
    (split a (String NL "") ++ split b (String NL ""))%list.
Proof.
  induction a as [|c a IH].
  - change ("" +:+ String NL "" +:+ b) with (String NL b).
    by rewrite split_cons.
  - change (String c a +:+ String NL "" +:+ b)
      with (String c (a +:+ String NL "" +:+ b)).
    rewrite !split_cons, IH. destruct (is_nl c); [done|].
    destruct (split a (String NL "")) eqn:E; [|done].
    unfold split in E. by destruct (split_go (String NL "") a 0).
Qed.

(** The lines of a text that is followed by one more, newline-free
    line. *)
Lemma split_last_line y l :
  no_nl l ->
  y = "" \/ (exists z, y = z +:+ String NL "") ->
  exists ls, split (y +:+ l) (String NL "") = (ls ++ [l])%list.
Proof.
  intros Hl [-> | [z ->]].
  - exists []. by apply split_no_nl.
  - exists (split z (String NL "")).
    rewrite str_app_assoc.
    by rewrite split_app_nl, (split_no_nl l).
Qed.

Lemma prefix_empty s : String.prefix "" s = true.
Proof. by destruct s. Qed.

Lemma prefix_app sep s : String.prefix sep (sep +:+ s) = true.
Proof.
  induction sep as [|c sep IH]; [apply prefix_empty|].
  change (String c sep +:+ s) with (String c (sep +:+ s)).
  cbn [String.prefix]. by destruct (ascii_dec c c).
Qed.

Lemma drop_app sep s : drop (String.length sep) (sep +:+ s) = s.
Proof. induction sep as [|c sep IH]; [by destruct s | exact IH]. Qed.

(** The separator at the front is the first occurrence. *)
Lemma split_once_here sep s : split_once (sep +:+ s) sep = Some ("", s).
Proof.
  destruct (sep +:+ s) eqn:E; cbn [split_once]; rewrite <- E;
    by rewrite prefix_app, drop_app.
Qed.

Lemma split_once_skip c s sep :
  String.prefix sep (String c s) = false ->
  split_once (String c s) sep =
    match split_once s sep with
    | Some (a, b) => Some (String c a, b)
    | None => None
    end.
Proof. intros H. cbn [split_once]. by rewrite H. Qed.

Lemma split_once_uri u : split_once ("uri: " +:+ u) ": " = Some ("uri", u).
Proof.
  change ("uri: " +:+ u)
    with (String "u" (String "r" (String "i" (": " +:+ u)))).
  rewrite !split_once_skip by reflexivity.
  by rewrite split_once_here.
Qed.

End PyStrFacts.

(** ** The control record parser *)

Module ParserFacts.
Import PyStr PyStrFacts Parser.

Lemma continuations_app {A} (k : option (list string) -> list string -> A)
    conts rest e :
  continuation_lines conts -> starts_with_header rest ->
  continuations k (conts ++ rest) e =
    k (match conts with
       | [] => e
       | _ => Some (default [] e ++ (continuation <$> conts))%list
       end) rest.
Proof.
  intros Hc Hr. revert e. induction Hc as [|c cs Hstart _ IH]; intros e.
  - destruct rest as [|l rest]; [done|]. simpl in *. by rewrite Hr.
  - simpl. rewrite Hstart, IH. destruct cs as [|c' cs]; [done|].
    simpl. by rewrite <- app_assoc.
Qed.

(** Wherever the inner loop stops, what remains is no longer than what it
    started on. *)
Lemma continuations_stop {A} (k : option (list string) -> list string -> A)
    lines e :
  exists e' popped lines',
    continuations k lines e = k e' lines'
    /\ lines = (popped ++ lines')%list
    /\ continuation_lines popped.
Proof.
  revert e. induction lines as [|l lines IH]; intros e.
  - exists e, [], []. split_and!; [done..|constructor].
  - simpl. destruct (startswith l " ") eqn:Hl.
    + destruct (IH (Some (default [] e ++ [continuation l])%list))
        as (e' & popped & lines' & -> & -> & Hpop).
      exists e', (l :: popped), lines'. split_and!; [done..|].
      by constructor.
    + exists e, [], (l :: lines). split_and!; [done..|constructor].
Qed.

(** One field: a header line, the continuation lines after it, and the
    insertion into [pkg]. *)
Lemma parse_lines_field line k v conts rest pkg :
  split_once line ": " = Some (k, v) ->
  continuation_lines conts -> starts_with_header rest ->
  parse_lines (line :: conts ++ rest) pkg =
    (v0 ← coerce_size k v;
     v' ← folded v0 (match conts with
                     | [] => None
                     | _ => Some (continuation <$> conts)
                     end);
     parse_lines rest (<[lower k := v']> pkg)).
Proof.
  intros Hsplit Hc Hr. cbn [parse_lines]. unfold split_header.
  rewrite Hsplit. cbn. destruct (coerce_size k v) as [v0|e]; [|done].
  cbn. rewrite continuations_app by done. by destruct conts.
Qed.

(** An invariant of [pkg] that every insertion of the loop keeps holds of
    the parsed record. *)
Lemma parse_lines_invariant (I : fields -> Prop) :
  (forall k v v0 e v' pkg,
      I pkg -> coerce_size k v = Ok v0 -> folded v0 e = Ok v' ->
      I (<[lower k := v']> pkg)) ->
  forall lines pkg r, I pkg -> parse_lines lines pkg = Ok r -> I r.
Proof.
  intros Hstep lines.
  assert (forall n lines pkg r,
             length lines <= n -> I pkg -> parse_lines lines pkg = Ok r ->
             I r) as Hn; [|by eauto].
  clear lines. induction n as [|n IH]; intros lines pkg r Hlen HI Hp.
  - destruct lines; [|simpl in Hlen; lia]. simpl in Hp. congruence.
  - destruct lines as [|line lines]; [simpl in Hp; congruence|].
    cbn [parse_lines] in Hp.
    destruct (split_header line) as [[k v]|]; [|done]. cbn in Hp.
    destruct (coerce_size k v) as [v0|] eqn:Hv0; [|done]. cbn in Hp.
    match type of Hp with continuations ?k _ _ = _ =>
      destruct (continuations_stop k lines None)
        as (e' & popped & lines' & Hk & -> & _)
    end.
    rewrite Hk in Hp. destruct (folded v0 e') as [v'|] eqn:Hv'; [|done].
    cbn in Hp. eapply IH; [| |exact Hp].
    + simpl in Hlen. rewrite length_app in Hlen. lia.
    + by eapply Hstep.
Qed.


(** The last line of a stanza, when it is a header line, is read by an
    iteration of the outer loop of its own. *)
Lemma parse_lines_last ls last pkg r :
  startswith last " " = false ->
  parse_lines (ls ++ [last]) pkg = Ok r ->
  exists pkg', parse_lines [last] pkg' = Ok r.
Proof.
  intros Hlast.
  assert (forall n ls pkg,
             length ls <= n -> parse_lines (ls ++ [last]) pkg = Ok r ->
             exists pkg', parse_lines [last] pkg' = Ok r) as Hn; [|by eauto].
  clear ls pkg. induction n as [|n IH]; intros ls pkg Hlen Hp.
  - destruct ls; [|simpl in Hlen; lia]. by exists pkg.
  - destruct ls as [|line ls]; [by exists pkg|].
    change ((line :: ls) ++ [last])%list with (line :: ls ++ [last])%list in Hp.
    cbn [parse_lines] in Hp.
    destruct (split_header line) as [[k v]|]; [|done]. cbn in Hp.
    destruct (coerce_size k v) as [v0|] eqn:Hv0; [|done]. cbn in Hp.
    match type of Hp with continuations ?k _ _ = _ =>
      destruct (continuations_stop k (ls ++ [last])%list None)
        as (e' & popped & lines' & Hk & Hpop & Hconts)
    end.
    rewrite Hk in Hp. destruct (folded v0 e') as [v'|]; [|done].
    cbn in Hp.
    (* The inner loop cannot pop [last]. *)
    destruct lines' as [|l' lines' _] using rev_ind.
    + exfalso. rewrite app_nil_r in Hpop. subst popped.
      unfold continuation_lines in Hconts.
      rewrite Forall_app, Forall_singleton in Hconts.
      destruct Hconts as [_ Hl]. congruence.
    + rewrite app_assoc in Hpop. apply app_inj_tail in Hpop as [-> ->].
      eapply IH; [|exact Hp].
      rewrite length_cons, length_app in Hlen. lia.
Qed.

(** The field a stanza ends with, when its line is a header line, is the
    one the record holds under that name. *)
Lemma parse_lines_last_field ls k v pkg r :
  k <> "Size" ->
  parse_lines (ls ++ [k +:+ ": " +:+ v])%list pkg = Ok r ->
  startswith (k +:+ ": " +:+ v) " " = false ->
  split_once (k +:+ ": " +:+ v) ": " = Some (k, v) ->
  r !! lower k = Some (VStr v).
Proof.
  intros Hk Hp Hstart Hsplit.
  destruct (parse_lines_last _ _ _ _ Hstart Hp) as [pkg' Hlast].
  change [k +:+ ": " +:+ v] with ((k +:+ ": " +:+ v) :: [] ++ []) in Hlast.
  rewrite (parse_lines_field _ k v) in Hlast by (done || constructor).
  unfold coerce_size in Hlast.
  destruct (String.eqb_spec k "Size"); [done|].
  cbn in Hlast. injection Hlast as <-. apply lookup_insert_eq.
Qed.

End ParserFacts.

(** C5 (amended).  A field whose header line [k: v], with [k] other than
    [Size], is followed by the continuation lines " a", " ." and " b" is
    stored under the lower-cased [k] with the value [v], a newline, "a", an
    empty line and "b": the header's own value comes first, the popped
    lines are stripped and joined to it by newlines, and the line that is
    exactly a dot contributes the empty string. *)
Theorem continuation_folding (line k v : string) (rest : list string)
    (pkg : fields) :
  PyStr.split_once line ": " = Some (k, v) ->
  k <> "Size" ->
  Parser.starts_with_header rest ->
  Parser.parse_lines (line :: " a" :: " ." :: " b" :: rest) pkg =
    Parser.parse_lines rest
      (<[PyStr.lower k := VStr (v +:+ nl +:+ "a" +:+ nl +:+ nl +:+ "b")]> pkg).
Proof.
  intros Hsplit Hk Hrest.
  change (line :: " a" :: " ." :: " b" :: rest)
    with (line :: [" a"; " ."; " b"] ++ rest)%list.
  rewrite (ParserFacts.parse_lines_field line k v); [|done| |done].
  - unfold Parser.coerce_size.
    destruct (String.eqb_spec k "Size"); [done|]. reflexivity.
  - repeat constructor.
Qed.

Lemma continuation_folding_witness :
  Parser.parse_lines ["Description: x"; " a"; " ."; " b"; "uri: u"] ∅ =
    Parser.parse_lines ["uri: u"]
      (<["description" := VStr ("x" +:+ nl +:+ "a" +:+ nl +:+ nl +:+ "b")]> ∅).
Proof.
  apply (continuation_folding "Description: x" "Description" "x" ["uri: u"] ∅);
    [reflexivity | discriminate | reflexivity].
Defined.

(** C5 as stated fails: the value of the folded field starts with the
    header's own value. *)
Lemma continuation_folding_counterexample :
  Parser.parse_package_metadata
    ("Description: x" +:+ nl +:+ " a" +:+ nl +:+ " ." +:+ nl +:+ " b") =
    Ok {[ "description" := VStr ("x" +:+ nl +:+ "a" +:+ nl +:+ nl +:+ "b") ]}
  /\ VStr ("x" +:+ nl +:+ "a" +:+ nl +:+ nl +:+ "b")
     <> VStr ("a" +:+ nl +:+ nl +:+ "b").
Proof. split; [reflexivity | discriminate]. Qed.

Module FieldsFacts.
Import PyStr Parser ParserFacts.









End FieldsFacts.




(** ** The stanzas of the index fetcher *)

(** The stanzas of a component are the non-empty pieces of the index text,
    each stripped of newlines and followed by the line [uri: ] with the
    base URL as its last line; and a record parsed from such a stanza holds
    the base URL under [uri], whatever the stanza's own text says. *)
Lemma stanzas_carry_uri (data source_url : string) :
  PyStr.no_nl source_url ->
  (forall s, s ∈ stanzas data source_url <->
     exists d, d ∈ PyStr.split (PyStr.strip_nl data) (nl +:+ nl) /\ d <> ""
               /\ s = PyStr.strip_nl d +:+ nl +:+ "uri: " +:+ source_url)
  /\ (forall s, s ∈ stanzas data source_url ->
        exists ls, PyStr.split s nl = (ls ++ ["uri: " +:+ source_url])%list)
  /\ (forall s pkg, s ∈ stanzas data source_url ->
        Parser.parse_package_metadata s = Ok pkg ->
        pkg !! "uri" = Some (VStr source_url)).
Proof.
  intros Hurl.
  assert (Huri : PyStr.no_nl ("uri: " +:+ source_url)) by exact Hurl.
  assert (Hshape : forall s, s ∈ stanzas data source_url <->
     exists d, d ∈ PyStr.split (PyStr.strip_nl data) (nl +:+ nl) /\ d <> ""
               /\ s = PyStr.strip_nl d +:+ nl +:+ "uri: " +:+ source_url).
  { intros s. unfold stanzas. rewrite list_elem_of_fmap. split.
    - intros (d & -> & Hd). apply list_elem_of_filter in Hd as [Hne Hd].
      by exists d.
    - intros (d & Hd & Hne & ->). exists d. split; [done|].
      by apply list_elem_of_filter. }
  split_and!; [exact Hshape | |].
  - intros s (d & _ & _ & ->)%Hshape.
    rewrite <- PyStrFacts.str_app_assoc.
    apply PyStrFacts.split_last_line; [done|]. right. by eexists.
  - intros s pkg (d & _ & _ & ->)%Hshape Hparse.
    unfold Parser.parse_package_metadata, PyStr.strip_nl, PyStr.strip_by in Hparse.
    rewrite <- PyStrFacts.str_app_assoc in Hparse.
    rewrite PyStrFacts.lstrip_app in Hparse by reflexivity.
    rewrite PyStrFacts.rstrip_app_keep in Hparse;
      [|discriminate| by apply PyStrFacts.rstrip_id].
    destruct (PyStrFacts.split_last_line
                (PyStr.lstrip PyStr.is_nl
                   (PyStr.rstrip PyStr.is_nl (PyStr.lstrip PyStr.is_nl d)
                    +:+ nl))
                ("uri: " +:+ source_url) Huri
                (PyStrFacts.lstrip_nl_end _)) as [ls Hls].
    fold nl in Hls, Hparse. rewrite Hls in Hparse.
    change (pkg !! PyStr.lower "uri" = Some (VStr source_url)).
    apply (ParserFacts.parse_lines_last_field ls "uri" source_url ∅ pkg);
      [discriminate | exact Hparse | reflexivity
      | apply PyStrFacts.split_once_uri].
Qed.

(** ** The version resolver *)

Module ResolverFacts.

(** A stanza that parses to a record without [package] ends the loop of
    [aptparser.py] with an [AttributeError]: nothing after it is read. *)
Lemma missing_package_aborts version_compare packages stanza rest pkg :
  stanza <> "" ->
  Parser.parse_package_metadata stanza = Ok pkg ->
  pkg !! "package" = None ->
  add_packages version_compare packages (stanza :: rest)
    = Raise AttributeError.
Proof.
  intros Hne Hparse Hnone. cbn [add_packages]. unfold add_package.
  destruct (String.eqb_spec stanza ""); [done|].
  rewrite Hparse. cbn. unfold getattr. by rewrite Hnone.
Qed.

End ResolverFacts.

(** C1 (amended).  When the name of a new record is already in the
    catalog, the stored record is kept only if its version is strictly
    greater than the new one under the ordering; when the new version is
    greater or the two compare equal, the new record replaces it (the
    record seen last wins a tie). *)
Theorem resolver_replacement (version_compare : string -> string -> Z)
    (packages : gmap string fields) (name : string)
    (existing package : fields) (v_old v_new : string) :
  packages !! name = Some existing ->
  existing !! "version" = Some (VStr v_old) ->
  package !! "version" = Some (VStr v_new) ->
  (1 <= version_compare v_old v_new ->
   store version_compare packages name package = Ok packages)%Z
  /\ (version_compare v_old v_new <= 0 ->
      store version_compare packages name package
        = Ok (<[name := package]> packages))%Z.
Proof.
  intros Hname Hold Hnew. unfold store, get_larger_version, getattr.
  rewrite Hname, Hold, Hnew. cbn. split; intros Hres.
  - destruct (Z.geb_spec (version_compare v_old v_new) 1); [|lia].
    cbn. by rewrite insert_id.
  - destruct (Z.geb_spec (version_compare v_old v_new) 1); [lia|]. done.
Qed.

Lemma resolver_replacement_witness :
  (DebVersion.compare "1.0" "1.0" <= 0)%Z
  /\ store DebVersion.compare
       {[ "a" := Samples.record_of Samples.first_a ]} "a"
       (Samples.record_of Samples.second_a)
     = Ok (<["a" := Samples.record_of Samples.second_a]>
             {[ "a" := Samples.record_of Samples.first_a ]}).
Proof.
  split; [by vm_compute|].
  apply (resolver_replacement DebVersion.compare
           {[ "a" := Samples.record_of Samples.first_a ]} "a"
           (Samples.record_of Samples.first_a)
           (Samples.record_of Samples.second_a) "1.0" "1.0");
    [reflexivity | reflexivity | reflexivity | by vm_compute].
Defined.

(** C1 as stated fails: two records of one name whose versions compare
    equal leave the second one in the catalog, not the first. *)
Lemma resolver_replacement_counterexample :
  DebVersion.compare "1.0" "1.0" = 0%Z
  /\ add_packages DebVersion.compare ∅
       [Samples.first_a; Samples.second_a]
     = Ok {[ "a" := Samples.record_of Samples.second_a ]}
  /\ Samples.record_of Samples.second_a
     <> Samples.record_of Samples.first_a.
Proof.
  split_and!; [reflexivity | reflexivity |].
  intros H.
  assert (Samples.record_of Samples.second_a !! "filename"
          = Samples.record_of Samples.first_a !! "filename")
    as Hf by (by rewrite H).
  vm_compute in Hf. discriminate.
Qed.

(** C3, evaluated.  A stanza without [Package] between two good ones: the
    loop of [aptparser.py] stops with an [AttributeError], so the stanza
    after it is never read; the loop of [apt-mirror.py] goes on with the
    name of the stanza before and files the nameless record under it. *)
Theorem missing_package_run :
  add_packages DebVersion.compare ∅
    [Samples.first_a; Samples.nameless; Samples.only_b]
  = Raise AttributeError
  /\ mirror_add_packages DebVersion.compare (∅, None)
       [Samples.first_a; Samples.nameless; Samples.only_b]
     = Ok ({[ "a" := Samples.record_of Samples.nameless;
              "b" := Samples.record_of Samples.only_b ]},
           Some "b").
Proof. split; reflexivity. Qed.

(** ** The JSON snapshot *)

Module SnapshotFacts.

(** What the import holds for a name: the fields of the record as they
    were before the export, and the key [__class__]. *)
Lemma roundtrip_fields (packages : gmap string fields) (name : string) :
  loaded_fields (json_load (json_dump packages).1) name =
    (fun d : gmap string json => <["__class__" := JString "SimpleNamespace"]> d)
      <$> catalog_fields packages name.
Proof.
  unfold loaded_fields, loaded_item, catalog_fields, json_dump. cbn.
  rewrite !lookup_fmap. destruct (packages !! name) as [d|]; [|done].
  cbn. unfold json_of_fields, NamespaceEncoder.default.
  by rewrite fmap_insert.
Qed.

(** Every value of an imported catalog is a plain dict, on which the
    attribute access of [main] fails. *)
Lemma loaded_item_no_attr (packages : gmap string fields) name o :
  loaded_item (json_load (json_dump packages).1) name = Some o ->
  package_attr o = Raise AttributeError.
Proof.
  unfold loaded_item, json_dump. cbn. rewrite !lookup_fmap.
  destruct (packages !! name); [|done]. cbn. by intros [= <-].
Qed.

End SnapshotFacts.

(** C2, evaluated.  Exporting a catalog of one record and importing the
    document gives, for that name, a dict with the original fields and the
    additional key [__class__]; it differs from the original record, and
    [package.package] fails on it. *)
Theorem snapshot_roundtrip_run :
  loaded_fields (json_load (json_dump Samples.catalog_a).1) "a"
  = Some {[ "package" := JString "a"; "version" := JString "1.0";
            "uri" := JString "http://example.test/debian";
            "__class__" := JString "SimpleNamespace" ]}
  /\ loaded_fields (json_load (json_dump Samples.catalog_a).1) "a"
     <> catalog_fields Samples.catalog_a "a"
  /\ package_attr
       <$> loaded_item (json_load (json_dump Samples.catalog_a).1) "a"
     = Some (Raise AttributeError).
Proof.
  split_and!; [reflexivity | | reflexivity].
  intros H.
  assert ((loaded_fields (json_load (json_dump Samples.catalog_a).1) "a"
             ≫= fun d => d !! "__class__")
          = (catalog_fields Samples.catalog_a "a"
               ≫= fun d => d !! "__class__")) as Hc by (by rewrite H).
  vm_compute in Hc. discriminate.
Qed.

(** C10.  After an export every record of the catalog is the record it was
    with the key [__class__] set to "SimpleNamespace": the names are the
    same, every record carries the key, and a record that did not have it
    makes the catalog after the export differ from the one before. *)
Theorem export_mutates_catalog (packages : gmap string fields)
    (name : string) (d : fields) :
  packages !! name = Some d ->
  (json_dump packages).2 !! name
    = Some (<["__class__" := VStr "SimpleNamespace"]> d)
  /\ (forall n r, (json_dump packages).2 !! n = Some r ->
                  r !! "__class__" = Some (VStr "SimpleNamespace"))
  /\ dom (json_dump packages).2 = dom packages
  /\ (d !! "__class__" = None -> (json_dump packages).2 <> packages).
Proof.
  intros Hname. unfold json_dump. cbn. split_and!.
  - by rewrite lookup_fmap, Hname.
  - intros n r. rewrite lookup_fmap.
    destruct (packages !! n); [|done]. intros [= <-].
    apply lookup_insert_eq.
  - apply dom_fmap_L.
  - intros Hnone Heq.
    assert ((NamespaceEncoder.default <$> packages) !! name = Some d) as H
      by (by rewrite Heq).
    rewrite lookup_fmap, Hname in H. injection H as H.
    assert (NamespaceEncoder.default d !! "__class__" = None) as H'
      by (by rewrite H).
    unfold NamespaceEncoder.default in H'.
    by rewrite lookup_insert_eq in H'.
Qed.

Lemma export_mutates_catalog_witness :
  Samples.catalog_a !! "a"
    = Some {[ "package" := VStr "a"; "version" := VStr "1.0";
              "uri" := VStr "http://example.test/debian" ]}
  /\ (json_dump Samples.catalog_a).2 <> Samples.catalog_a.
Proof.
  split; [reflexivity|].
  exact (proj2 (proj2 (proj2
           (export_mutates_catalog Samples.catalog_a "a" _ eq_refl)))
           eq_refl).
Defined.

(** ** The download driver *)

Module DownloadFacts.

Lemma download_package_skip http_get download w package :
  already_there download w package ->
  download_package http_get download package w = (Ok tt, w).
Proof.
  intros (uri & filename & data & Huri & Hfile & Hfs & Hsize).
  unfold download_package, download_url, download_target, getattr.
  rewrite Huri, Hfile.
  unfold already_downloaded, Os.file_size, getattr.
  unfold mbind, io_bind, result_bind, lift, mret, io_ret. cbn in *.
  rewrite Hfs, Hsize. cbn. by rewrite Z.eqb_refl.
Qed.

Lemma download_each_skip http_get download w items :
  Forall (fun item => already_there download w item.2) items ->
  download_each http_get download items w = (Ok tt, w).
Proof.
  induction 1 as [|[name package] items Hhere _ IH]; [done|].
  cbn [download_each]. unfold mbind, io_bind.
  by rewrite (download_package_skip _ _ _ _ Hhere).
Qed.

Lemma sorted_items_in packages name package :
  (name, package) ∈ sorted_items packages -> packages !! name = Some package.
Proof.
  unfold sorted_items. rewrite merge_sort_Permutation.
  apply elem_of_map_to_list.
Qed.

End DownloadFacts.

(** C6.  A record whose target already is a regular file of the recorded
    size is skipped: the download of that package returns with the world as
    it was, so no request is logged and no file changes; and a run over a
    catalog all of whose targets are such files leaves the world as it was,
    issuing no request at all, in the loop of [aptparser.py] and in that of
    [apt-mirror.py]. *)
Theorem download_skips_matching (http_get : string -> result response)
    (download : string) (packages : gmap string fields) (w : world) :
  (forall package,
      already_there download w package ->
      download_package http_get download package w = (Ok tt, w))
  /\ ((forall name package,
          packages !! name = Some package ->
          already_there download w package) ->
      download_all http_get download packages w = (Ok tt, w))
  /\ ((forall name package,
          packages !! name = Some package ->
          already_there output_dir w package) ->
      mirror_download_all http_get packages w = (Ok tt, w)).
Proof.
  split_and!.
  - intros package. apply DownloadFacts.download_package_skip.
  - intros Hall. apply DownloadFacts.download_each_skip.
    apply Forall_forall. intros [name package] Hin.
    apply (Hall name), DownloadFacts.sorted_items_in, Hin.
  - intros Hall. apply DownloadFacts.download_each_skip.
    apply Forall_forall. intros [name package] Hin.
    apply (Hall name), elem_of_map_to_list, Hin.
Qed.

Lemma download_skips_matching_witness :
  download_all Samples.no_network "/out" Samples.downloaded
    Samples.downloaded_world
  = (Ok tt, Samples.downloaded_world).
Proof.
  apply (proj1 (proj2 (download_skips_matching Samples.no_network "/out"
                         Samples.downloaded Samples.downloaded_world))).
  intros name package Hin.
  destruct (decide (name = "a")) as [->|Hne].
  - injection Hin as <-.
    exists (VStr "http://example.test/debian"), (VStr "pool/a.deb"), "abc".
    repeat split; reflexivity.
  - unfold Samples.downloaded in Hin.
    rewrite lookup_singleton_ne in Hin by done. discriminate.
Defined.

(** ** The patterns *)

Module ReFacts.
Import PyStr PyStrFacts.

(** Where the rest of the pattern matches after the longest run, a greedy
    repetition gives nothing back. *)
Lemma star_greedy_app_some {R} p (k : string -> option R) a b x :
  all_chars p a = true ->
  Re.star_greedy p k b = Some x ->
  Re.star_greedy p k (a +:+ b) = Some x.
Proof.
  intros Ha Hb. induction a as [|c a IH]; [done|].
  simpl in Ha. apply andb_true_iff in Ha as [Hc Ha].
  change (String c a +:+ b) with (String c (a +:+ b)).
  cbn [Re.star_greedy]. by rewrite Hc, (IH Ha).
Qed.

Lemma str_length_app a b :
  String.length (a +:+ b) = String.length a + String.length b.
Proof. induction a as [|c a IH]; simpl; [done | by rewrite IH]. Qed.

Lemma str_take_app a b : take (String.length a) (a +:+ b) = a.
Proof. induction a as [|c a IH]; simpl; [by destruct b | by rewrite IH]. Qed.

Lemma take_app_minus a b :
  take (String.length (a +:+ b) - String.length b) (a +:+ b) = a.
Proof.
  rewrite str_length_app.
  replace (String.length a + String.length b - String.length b)
    with (String.length a) by lia.
  apply str_take_app.
Qed.

(** [URL_MATCHER] on an http or https URL that ends in [.gz]: group 1 is
    the text between the scheme and that suffix. *)
Lemma url_matcher_gz scheme body :
  scheme = "http://" \/ scheme = "https://" ->
  no_nl body ->
  exists g,
    Re.rmatch URL_MATCHER (scheme +:+ body +:+ ".gz") = Some (g, "")
    /\ g !! "1" = Some body.
Proof.
  intros Hscheme Hbody.
  exists (<["2" := "gz"]> (<["1" := body]> ∅)). split; [|done].
  assert (Hstar : forall whole,
    Re.star_greedy Re.dot
      (fun s' =>
         Re.run whole (Re.Chr "."%char) s'
           (<["1" := take (String.length (body +:+ ".gz") - String.length s')
                       (body +:+ ".gz")]> ∅)
           (fun s'' g' =>
              Re.run whole
                (Re.Alt (Re.lit "gz")
                   (Re.Alt (Re.lit "xz")
                      (Re.Alt (Re.lit "lzma") (Re.lit "bz2")))) s'' g'
                (fun rest g'' =>
                   Some (<["2" := take (String.length s''
                                        - String.length rest) s'']> g'',
                         rest))))
      (body +:+ ".gz")
    = Some (<["2" := "gz"]> (<["1" := body]> ∅), "")).
  { intros whole. apply star_greedy_app_some; [exact Hbody|].
    cbn -[String.length take String.append].
    by rewrite (take_app_minus body ".gz"). }
  specialize (Hstar "").
  cbn -[Re.star_greedy String.length take String.append] in Hstar.
  unfold Re.rmatch, URL_MATCHER.
  destruct Hscheme as [-> | ->].
  - change ("http://" +:+ body +:+ ".gz")
      with (String "h" (String "t" (String "t" (String "p"
             (String ":" (String "/" (String "/" (body +:+ ".gz")))))))).
    cbn -[Re.star_greedy String.length take String.append].
    exact Hstar.
  - change ("https://" +:+ body +:+ ".gz")
      with (String "h" (String "t" (String "t" (String "p" (String "s"
             (String ":" (String "/" (String "/" (body +:+ ".gz"))))))))).
    cbn -[Re.star_greedy String.length take String.append].
    by rewrite Hstar.
Qed.

(** What a successful run has done when it reaches the rest [k] of the
    match: it has consumed a prefix [c] of the text, left the groups it
    does not contain as they were, and consumed only characters of [q] when
    the pattern can consume no others. *)
Lemma star_greedy_post {R} p (k : string -> option R) s x :
  Re.star_greedy p k s = Some x ->
  exists c s', s = c +:+ s' /\ all_chars p c = true /\ k s' = Some x.
Proof.
  induction s as [|a s IH]; cbn [Re.star_greedy].
  - intros H. by exists "", "".
  - destruct (p a) eqn:Hp.
    + destruct (Re.star_greedy p k s) as [y|] eqn:Hs.
      * intros [= ->]. destruct (IH eq_refl) as (c & s' & -> & Hc & Hk).
        exists (String a c), s'. split_and!; [done| |done].
        simpl. by rewrite Hp, Hc.
      * intros H. by exists "", (String a s).
    + intros H. by exists "", (String a s).
Qed.

Lemma star_lazy_post {R} p (k : string -> option R) s x :
  Re.star_lazy p k s = Some x ->
  exists c s', s = c +:+ s' /\ all_chars p c = true /\ k s' = Some x.
Proof.
  induction s as [|a s IH]; cbn [Re.star_lazy].
  - destruct (k "") eqn:Hk; [|done]. intros [= ->]. by exists "", "".
  - destruct (k (String a s)) eqn:Hk.
    + intros [= ->]. by exists "", (String a s).
    + destruct (p a) eqn:Hp; [|done]. intros H.
      destruct (IH H) as (c & s' & -> & Hc & Hk').
      exists (String a c), s'. split_and!; [done| |done].
      simpl. by rewrite Hp, Hc.
Qed.

Lemma all_chars_impl (p q : ascii -> bool) c :
  (forall a, p a = true -> q a = true) ->
  all_chars p c = true -> all_chars q c = true.
Proof.
  intros Hpq. induction c as [|a c IH]; [done|]. simpl.
  intros [Ha Hc]%andb_true_iff. by rewrite (Hpq a Ha), (IH Hc).
Qed.

Lemma run_post {R} whole name q r :
  forall s g (k : string -> Re.groups -> option R) x,
    Re.run whole r s g k = Some x ->
    exists c s' g',
      s = c +:+ s' /\ k s' g' = Some x
      /\ (Re.has_group name r = false -> g' !! name = g !! name)
      /\ (Re.consumes_only q r -> all_chars q c = true).
Proof.
  induction r as [|a|p|greedy p|r1 IH1|r1 IH1 r2 IH2|r1 IH1 r2 IH2|n r1 IH1];
    intros s g k x; cbn [Re.run Re.has_group Re.consumes_only].
  - destruct (Nat.eqb _ _); [|done]. intros H. by exists "", s, g.
  - destruct s as [|a' s]; [done|].
    destruct (Ascii.eqb_spec a' a) as [->|]; [|done]. intros H.
    exists (String a ""), s, g. split_and!; [done..|].
    intros Hq. simpl. by rewrite Hq.
  - destruct s as [|a' s]; [done|]. destruct (p a') eqn:Hp; [|done].
    intros H. exists (String a' ""), s, g. split_and!; [done..|].
    intros Hq. simpl. by rewrite (Hq a' Hp).
  - destruct greedy.
    + intros (c & s' & -> & Hc & Hk)%star_greedy_post.
      exists c, s', g. split_and!; [done..|].
      intros Hq. by apply (all_chars_impl p q).
    + intros (c & s' & -> & Hc & Hk)%star_lazy_post.
      exists c, s', g. split_and!; [done..|].
      intros Hq. by apply (all_chars_impl p q).
  - destruct (Re.run whole r1 s g k) as [y|] eqn:H1.
    + intros [= ->]. by apply IH1.
    + intros H. by exists "", s, g.
  - intros H.
    destruct (IH1 _ _ _ _ H) as (c1 & s1 & g1 & -> & H2 & Hg1 & Hc1).
    destruct (IH2 _ _ _ _ H2) as (c2 & s2 & g2 & -> & Hk & Hg2 & Hc2).
    exists (c1 +:+ c2), s2, g2. split_and!.
    + by rewrite str_app_assoc.
    + done.
    + intros [Hn1 Hn2]%orb_false_iff. by rewrite Hg2, Hg1.
    + intros [Hq1 Hq2]. by rewrite all_chars_app, Hc1, Hc2.
  - destruct (Re.run whole r1 s g k) as [y|] eqn:H1.
    + intros [= ->].
      destruct (IH1 _ _ _ _ H1) as (c & s' & g' & -> & Hk & Hg & Hc).
      exists c, s', g'. split_and!; [done..| |].
      * intros [Hn1 _]%orb_false_iff. auto.
      * intros [Hq1 _]. auto.
    + intros H.
      destruct (IH2 _ _ _ _ H) as (c & s' & g' & -> & Hk & Hg & Hc).
      exists c, s', g'. split_and!; [done..| |].
      * intros [_ Hn2]%orb_false_iff. auto.
      * intros [_ Hq2]. auto.
  - intros H.
    destruct (IH1 _ _ _ _ H) as (c & s' & g' & -> & Hk & Hg & Hc).
    rewrite take_app_minus in Hk.
    exists c, s', (<[n := c]> g'). split_and!; [done..| |done].
    intros [Hn Hn1]%orb_false_iff.
    apply String.eqb_neq in Hn. rewrite lookup_insert_ne by done. auto.
Qed.

(** A group holds the text its pattern consumed. *)
Lemma run_group {R} whole name q r :
  forall s g (k : string -> Re.groups -> option R) x,
    Re.run whole (Re.Group name r) s g k = Some x ->
    Re.consumes_only q r ->
    exists c s' g',
      k s' g' = Some x /\ g' !! name = Some c /\ all_chars q c = true.
Proof.
  intros s g k x H Hq. cbn [Re.run] in H.
  destruct (run_post whole name q r _ _ _ _ H)
    as (c & s' & g' & -> & Hk & _ & Hc).
  rewrite take_app_minus in Hk.
  exists c, s', (<[name := c]> g'). split_and!; [done| |auto].
  apply lookup_insert_eq.
Qed.

Lemma run_seq {R} whole r1 r2 s g (k : string -> Re.groups -> option R) :
  Re.run whole (Re.Seq r1 r2) s g k
  = Re.run whole r1 s g (fun s' g' => Re.run whole r2 s' g' k).
Proof. reflexivity. Qed.

(** The first part of a sequence has run when the second starts. *)
Lemma run_seq_next {R} whole r1 r2 s g
    (k : string -> Re.groups -> option R) x :
  Re.run whole (Re.Seq r1 r2) s g k = Some x ->
  exists s' g', Re.run whole r2 s' g' k = Some x.
Proof.
  rewrite run_seq. intros H.
  destruct (run_post whole "" (fun _ => true) r1 _ _ _ _ H)
    as (_ & s' & g' & _ & H' & _).
  by exists s', g'.
Qed.

(** The base URL of a declaration line that matches has no white space. *)
Lemma sources_line_url s results rest :
  Re.rmatch SOURCES_LINE_PAT s = Some (results, rest) ->
  exists url, results !! "url" = Some url
              /\ all_chars Re.nonspace url = true.
Proof.
  unfold Re.rmatch, SOURCES_LINE_PAT. cbn [Re.seq]. intros H.
  do 4 (apply run_seq_next in H as (? & ? & H)).
  rewrite run_seq in H.
  apply (run_group _ "url" Re.nonspace) in H
    as (url & s' & g' & H & Hurl & Hns); [|cbn; by repeat split].
  destruct (run_post _ "url" Re.nonspace _ _ _ _ _ H)
    as (_ & s'' & g'' & _ & Hk & Hframe & _).
  injection Hk as <- <-. exists url. split; [|done].
  by rewrite Hframe.
Qed.

End ReFacts.

(** ** The index fetcher *)

Module FetcherFacts.
Import PyStr PyStrFacts.

Lemma prefix_char c d s :
  String.prefix (String c "") (String d s) = Ascii.eqb c d.
Proof.
  change (String.prefix (String c "") (String d s))
    with (if ascii_dec c d then String.prefix "" s else false).
  destruct (ascii_dec c d) as [<-|Hne].
  - rewrite Ascii.eqb_refl. by destruct s.
  - symmetry. by apply Ascii.eqb_neq.
Qed.

(** A name in which every slash was replaced does not start with one. *)
Lemma replaced_not_absolute s :
  startswith (replace_char "/" "_" s) "/" = false.
Proof.
  destruct s as [|c s]; [done|]. unfold startswith. cbn [replace_char].
  rewrite prefix_char. destruct (Ascii.eqb_spec c "/") as [->|Hne]; [done|].
  apply Ascii.eqb_neq. congruence.
Qed.

Lemma join_lists_root name :
  startswith name "/" = false ->
  Os.join LISTS_ROOT [name] = LISTS_ROOT +:+ "/" +:+ name.
Proof. intros H. cbn [Os.join fold_left]. unfold Os.join2. by rewrite H. Qed.

(** A relative part is appended, after a slash unless one is there. *)
Lemma join2_shape a b :
  startswith b "/" = false ->
  exists sep, (sep = "" \/ sep = "/") /\ Os.join2 a b = a +:+ sep +:+ b.
Proof.
  intros H. unfold Os.join2. rewrite H.
  destruct (String.eqb a "" || endswith a "/").
  - exists "". by split; [left|].
  - exists "/". by split; [right|].
Qed.

(** The index URL of a component keeps the scheme of the base URL and ends
    in [.gz]. *)
Lemma packages_url_shape scheme rest release component :
  no_nl rest -> no_nl release -> no_nl component ->
  startswith release "/" = false -> startswith component "/" = false ->
  exists body,
    packages_url (scheme +:+ rest) release component
      = scheme +:+ body +:+ ".gz"
    /\ no_nl body.
Proof.
  intros Hrest Hrel Hcomp Hr Hc. unfold packages_url.
  cbn [Os.join fold_left].
  destruct (join2_shape (scheme +:+ rest) "dists" eq_refl)
    as (s1 & Hs1 & ->).
  destruct (join2_shape ((scheme +:+ rest) +:+ s1 +:+ "dists") release Hr)
    as (s2 & Hs2 & ->).
  destruct (join2_shape
              ((((scheme +:+ rest) +:+ s1 +:+ "dists") +:+ s2 +:+ release))
              component Hc) as (s3 & Hs3 & ->).
  destruct (join2_shape
              (((((scheme +:+ rest) +:+ s1 +:+ "dists") +:+ s2 +:+ release))
               +:+ s3 +:+ component)
              "binary-amd64/Packages.gz" eq_refl) as (s4 & Hs4 & ->).
  exists (rest +:+ s1 +:+ "dists" +:+ s2 +:+ release +:+ s3 +:+ component
          +:+ s4 +:+ "binary-amd64/Packages").
  split.
  - change "binary-amd64/Packages.gz" with ("binary-amd64/Packages" +:+ ".gz").
    by rewrite !str_app_assoc.
  - unfold no_nl in *. rewrite !all_chars_app, Hrest, Hrel, Hcomp.
    by destruct Hs1 as [-> | ->], Hs2 as [-> | ->], Hs3 as [-> | ->],
                Hs4 as [-> | ->].
Qed.

(** The derived cache path of an http or https URL ending in [.gz]. *)
Lemma local_cache_path_gz scheme body :
  scheme = "http://" \/ scheme = "https://" ->
  no_nl body ->
  local_cache_path (scheme +:+ body +:+ ".gz")
    = Ok (LISTS_ROOT +:+ "/" +:+ replace_char "/" "_" body).
Proof.
  intros Hscheme Hbody. unfold local_cache_path.
  destruct (ReFacts.url_matcher_gz scheme body Hscheme Hbody)
    as (g & -> & ->).
  by rewrite join_lists_root by apply replaced_not_absolute.
Qed.

(** A cache hit: the file is read and the world is left as it was. *)
Lemma fetch_index_cached console_print http_get gunzip packages_file path
    data w :
  local_cache_path packages_file = Ok path ->
  fs w !! path = Some (File data) ->
  fetch_index console_print http_get gunzip packages_file w
  = (Ok (data, "[cyan]Cache[/]"), w).
Proof.
  intros Hpath Hfile. unfold fetch_index. rewrite Hpath.
  unfold mbind, io_bind, lift, Os.isfile, Os.read. cbn.
  rewrite Hfile. cbn. by rewrite Hfile.
Qed.

(** A refused line raises before anything is fetched. *)
Lemma skipped_raises console_print http_get gunzip deb_line w :
  skipped deb_line ->
  get_packages_from_deb_line console_print http_get gunzip deb_line w
    = (Raise DebSrcLineUnparseable, w)
  \/ get_packages_from_deb_line console_print http_get gunzip deb_line w
     = (Raise DebSrcNotImplemented, w).
Proof.
  unfold skipped, get_packages_from_deb_line.
  destruct (Re.rmatch SOURCES_LINE_PAT (Re.sub_empty COMMENT_PAT deb_line))
    as [[results rest]|]; [|by left].
  intros ->. by right.
Qed.

(** At a refused line the loop prints the message of the handler and,
    when that returns, goes on with the world and the package data as they
    were. *)
Lemma process_refused console_print http_get gunzip deb_line after
    package_data w :
  skipped deb_line ->
  process_deb_lines console_print http_get gunzip (deb_line :: after)
    package_data w
  = match console_print (refusal_message deb_line) with
    | Ok _ =>
        process_deb_lines console_print http_get gunzip after package_data w
    | Raise e => (Raise e, w)
    end.
Proof.
  unfold skipped, refusal_message. cbn [process_deb_lines].
  unfold get_packages_from_deb_line.
  destruct (Re.rmatch SOURCES_LINE_PAT (Re.sub_empty COMMENT_PAT deb_line))
    as [[results rest]|].
  - intros ->. cbn. unfold mbind, io_bind, lift.
    by destruct (console_print (not_implemented_message deb_line)).
  - intros _. cbn. unfold mbind, io_bind, lift.
    by destruct (console_print (unparseable_message deb_line)).
Qed.

Lemma process_skipped console_print http_get gunzip deb_line after
    package_data w :
  skipped deb_line ->
  console_print (refusal_message deb_line) = Ok tt ->
  process_deb_lines console_print http_get gunzip (deb_line :: after)
    package_data w
  = process_deb_lines console_print http_get gunzip after package_data w.
Proof. intros Hskip Hprint. by rewrite process_refused, Hprint. Qed.

Lemma process_without console_print http_get gunzip deb_line before after
    package_data w :
  skipped deb_line ->
  console_print (refusal_message deb_line) = Ok tt ->
  process_deb_lines console_print http_get gunzip (before ++ deb_line :: after)
    package_data w
  = process_deb_lines console_print http_get gunzip (before ++ after)
      package_data w.
Proof.
  intros Hskip Hprint. revert package_data w.
  induction before as [|b before IH]; intros package_data w.
  - by apply process_skipped.
  - cbn [app process_deb_lines].
    destruct (get_packages_from_deb_line console_print http_get gunzip b w)
      as [[rd|e] w'].
    + apply IH.
    + destruct e; try done; unfold mbind, io_bind, lift;
        (case_match; [apply IH | done]).
Qed.

Lemma filter_sources_lines_app l1 l2 :
  filter_sources_lines (l1 ++ l2)
  = (filter_sources_lines l1 ++ filter_sources_lines l2)%list.
Proof.
  induction l1 as [|l l1 IH]; [done|]. cbn [app filter_sources_lines].
  rewrite IH. by repeat case_match.
Qed.

Lemma filter_sources_lines_dropped sources_line before after :
  dropped sources_line ->
  filter_sources_lines (before ++ sources_line :: after)
  = filter_sources_lines (before ++ after).
Proof.
  intros Hdrop. rewrite !filter_sources_lines_app. f_equal.
  cbn [filter_sources_lines]. unfold dropped in Hdrop. cbv zeta in *.
  destruct Hdrop as [-> | Hno]; [done|]. rewrite Hno. by case_match.
Qed.

(** White space includes the newline. *)
Lemma nonspace_no_nl s : all_chars Re.nonspace s = true -> no_nl s.
Proof.
  apply ReFacts.all_chars_impl. intros a. unfold Re.nonspace, is_nl.
  destruct (Ascii.eqb_spec a NL) as [->|]; [done | done].
Qed.

Lemma elem_of_concat {A} (x : A) (ls : list (list A)) :
  x ∈ concat ls <-> exists l, x ∈ l /\ l ∈ ls.
Proof.
  induction ls as [|l0 ls IH]; cbn [concat].
  - split; [by intros ?%elem_of_nil | by intros (l & _ & ?%elem_of_nil)].
  - rewrite elem_of_app, IH. split.
    + intros [Hx | (l & Hx & Hl)].
      * exists l0. split; [done | by left].
      * exists l. split; [done | by right].
    + intros (l & Hx & [-> | Hl]%elem_of_cons); [by left|].
      right. by exists l.
Qed.

(** The loop over the components adds, for each component, the stanzas of
    its index text. *)
Lemma fetch_components_stanzas console_print http_get gunzip url release
    components :
  forall release_data w out w',
    fetch_components console_print http_get gunzip url release components
      release_data w
      = (Ok out, w') ->
    exists datas,
      out = (release_data ++ concat ((fun data => stanzas data url) <$> datas))%list.
Proof.
  induction components as [|component components IH];
    intros release_data w out w'; cbn [fetch_components].
  - intros [= <- <-]. exists []. by rewrite app_nil_r.
  - unfold mbind, io_bind at 1.
    destruct (fetch_index console_print http_get gunzip _ w)
      as [[[data status]|e] w1]; [|done].
    unfold mbind, io_bind at 1. unfold lift at 1.
    destruct (console_print _); [|done].
    intros (datas & ->)%IH. exists (data :: datas).
    by rewrite <- app_assoc.
Qed.

End FetcherFacts.

(** C8.  The stanzas a declaration line yields are, component by
    component, the non-empty pieces of the index text, each stripped of
    newlines and followed by the line [uri: ] with the base URL of the
    line; that line is the last line of every stanza, and every record
    parsed from one holds the base URL under [uri], whatever the stanza's
    own text says. *)
Theorem uri_injection (console_print : string -> result unit)
    (http_get : string -> result response)
    (gunzip : string -> result string) (deb_line : string)
    (w w' : world) (release_data : list string) :
  get_packages_from_deb_line console_print http_get gunzip deb_line w
    = (Ok release_data, w') ->
  exists source_url datas,
    (exists results rest,
        Re.rmatch SOURCES_LINE_PAT (Re.sub_empty COMMENT_PAT deb_line)
          = Some (results, rest)
        /\ results !! "url" = Some source_url)
    /\ release_data = concat ((fun data => stanzas data source_url) <$> datas)
    /\ (forall data s,
          s ∈ stanzas data source_url <->
          exists d, d ∈ PyStr.split (PyStr.strip_nl data) (nl +:+ nl)
                    /\ d <> ""
                    /\ s = PyStr.strip_nl d +:+ nl +:+ "uri: " +:+ source_url)
    /\ (forall s, s ∈ release_data ->
          (exists ls, PyStr.split s nl = (ls ++ ["uri: " +:+ source_url])%list)
          /\ forall pkg, Parser.parse_package_metadata s = Ok pkg ->
                         pkg !! "uri" = Some (VStr source_url)).
Proof.
  unfold get_packages_from_deb_line.
  destruct (Re.rmatch SOURCES_LINE_PAT (Re.sub_empty COMMENT_PAT deb_line))
    as [[results rest]|] eqn:Hmatch; [|done].
  destruct (String.eqb _ _); [done|]. cbv zeta. intros Hrun.
  destruct (ReFacts.sources_line_url _ _ _ Hmatch) as (url & Hurl & Hns).
  apply FetcherFacts.nonspace_no_nl in Hns.
  replace (group results "url") with url in Hrun
    by (unfold group; by rewrite Hurl).
  unfold mbind, io_bind at 1 in Hrun.
  destruct (fetch_components console_print http_get gunzip url _ _ [] w)
    as [[out|e] w1] eqn:Hfetch; [|done].
  assert (out = release_data) as ->.
  { unfold mbind, io_bind, lift, mret, io_ret in Hrun.
    destruct (Nat.eqb _ 1); [|destruct (console_print _)];
      congruence. }
  apply FetcherFacts.fetch_components_stanzas in Hfetch as (datas & ->).
  exists url, datas. split_and!; [by eauto | done | |].
  - intros data. apply (stanzas_carry_uri data url Hns).
  - intros s (l & Hs & (data & -> & _)%list_elem_of_fmap)%FetcherFacts.elem_of_concat.
    destruct (stanzas_carry_uri data url Hns) as (_ & Hlast & Huri).
    split; [by apply Hlast | intros pkg; by apply Huri].
Qed.

Lemma uri_injection_witness :
  get_packages_from_deb_line Samples.console Samples.no_network Ok
    "deb http://example.test/debian bookworm main" Samples.cached_world
  = (Ok ["Package: a" +:+ nl +:+ "Version: 1.0" +:+ nl
           +:+ "uri: http://example.test/debian";
         "Package: b" +:+ nl +:+ "Version: 2.0" +:+ nl +:+ "uri: elsewhere"
           +:+ nl +:+ "uri: http://example.test/debian"],
     Samples.cached_world)
  /\ exists source_url datas,
       ["Package: a" +:+ nl +:+ "Version: 1.0" +:+ nl
          +:+ "uri: http://example.test/debian";
        "Package: b" +:+ nl +:+ "Version: 2.0" +:+ nl +:+ "uri: elsewhere"
          +:+ nl +:+ "uri: http://example.test/debian"]
       = concat ((fun data => stanzas data source_url) <$> datas).
Proof.
  assert (get_packages_from_deb_line Samples.console Samples.no_network Ok
            "deb http://example.test/debian bookworm main"
            Samples.cached_world
          = (Ok ["Package: a" +:+ nl +:+ "Version: 1.0" +:+ nl
                   +:+ "uri: http://example.test/debian";
                 "Package: b" +:+ nl +:+ "Version: 2.0" +:+ nl
                   +:+ "uri: elsewhere" +:+ nl
                   +:+ "uri: http://example.test/debian"],
             Samples.cached_world)) as Hrun by reflexivity.
  split; [exact Hrun|].
  destruct (uri_injection Samples.console Samples.no_network Ok
              "deb http://example.test/debian bookworm main"
              Samples.cached_world Samples.cached_world _ Hrun)
    as (source_url & datas & _ & Hdata & _).
  by exists source_url, datas.
Defined.

(** C4 (amended).  The index URL of a component of an http or https base
    URL is the scheme, a body and the suffix [.gz]; its cache path is the
    cache root joined with that body, every slash replaced by an
    underscore: the scheme and the compression suffix are both stripped.
    When a regular file is at that path, its content is the index text and
    the world, request log included, is left as it was. *)
Theorem cache_path_derivation (scheme rest release component : string) :
  scheme = "http://" \/ scheme = "https://" ->
  PyStr.no_nl rest -> PyStr.no_nl release -> PyStr.no_nl component ->
  PyStr.startswith release "/" = false ->
  PyStr.startswith component "/" = false ->
  exists body,
    packages_url (scheme +:+ rest) release component
      = scheme +:+ body +:+ ".gz"
    /\ local_cache_path (packages_url (scheme +:+ rest) release component)
       = Ok (LISTS_ROOT +:+ "/" +:+ PyStr.replace_char "/" "_" body)
    /\ forall console_print http_get gunzip w data,
         fs w !! (LISTS_ROOT +:+ "/" +:+ PyStr.replace_char "/" "_" body)
           = Some (File data) ->
         fetch_index console_print http_get gunzip
           (packages_url (scheme +:+ rest) release component) w
         = (Ok (data, "[cyan]Cache[/]"), w).
Proof.
  intros Hscheme Hrest Hrel Hcomp Hr Hc.
  destruct (FetcherFacts.packages_url_shape scheme rest release component
              Hrest Hrel Hcomp Hr Hc) as (body & Hurl & Hbody).
  exists body. rewrite Hurl.
  pose proof (FetcherFacts.local_cache_path_gz scheme body Hscheme Hbody)
    as Hpath.
  split_and!; [done | done |].
  intros console_print http_get gunzip w data Hfile.
  by apply (FetcherFacts.fetch_index_cached _ _ _ _ _ _ _ Hpath).
Qed.

Lemma cache_path_derivation_witness :
  exists body,
    packages_url ("http://" +:+ "example.test/debian") "bookworm" "main"
      = "http://" +:+ body +:+ ".gz"
    /\ local_cache_path
         (packages_url ("http://" +:+ "example.test/debian") "bookworm" "main")
       = Ok (LISTS_ROOT +:+ "/" +:+ PyStr.replace_char "/" "_" body)
    /\ forall console_print http_get gunzip w data,
         fs w !! (LISTS_ROOT +:+ "/" +:+ PyStr.replace_char "/" "_" body)
           = Some (File data) ->
         fetch_index console_print http_get gunzip
           (packages_url ("http://" +:+ "example.test/debian")
              "bookworm" "main") w
         = (Ok (data, "[cyan]Cache[/]"), w).
Proof.
  apply (cache_path_derivation "http://" "example.test/debian"
           "bookworm" "main"); [by left | reflexivity..].
Defined.

(** C4 as stated fails: the derived name drops the [.gz] suffix, which
    stripping the scheme and replacing the slashes would keep. *)
Lemma cache_path_derivation_counterexample :
  packages_url "http://example.test/debian" "bookworm" "main"
    = "http://example.test/debian/dists/bookworm/main/binary-amd64/Packages.gz"
  /\ local_cache_path
       (packages_url "http://example.test/debian" "bookworm" "main")
     = Ok "/var/lib/apt/lists/example.test_debian_dists_bookworm_main_binary-amd64_Packages"
  /\ spec_cache_path
       (packages_url "http://example.test/debian" "bookworm" "main")
     = "/var/lib/apt/lists/example.test_debian_dists_bookworm_main_binary-amd64_Packages.gz"
  /\ local_cache_path
       (packages_url "http://example.test/debian" "bookworm" "main")
     <> Ok (spec_cache_path
              (packages_url "http://example.test/debian" "bookworm" "main")).
Proof. split_and!; [reflexivity.. | discriminate]. Qed.

(** C7.  A declaration line that fails the grammar or has type [deb-src]
    raises one of the two exceptions [main] handles, before anything is
    fetched and with the world as it was.  The handler then prints a
    message that holds the line.  When the console prints it, the loop goes
    on: the run over the lines, the package data, the catalog built from
    it and the request log are the same as without that line.  When the
    console refuses it, the run ends there with the exception of the
    console, and no line after it is read.  A line of a list file that
    [get_deb_lines] passes over leaves the declaration lines as they are
    without it. *)
Theorem refused_line_run (version_compare : string -> string -> Z)
    (console_print : string -> result unit)
    (http_get : string -> result response) (gunzip : string -> result string)
    (deb_line : string) :
  skipped deb_line ->
  (forall w, exists e,
       (e = DebSrcLineUnparseable \/ e = DebSrcNotImplemented)
       /\ get_packages_from_deb_line console_print http_get gunzip deb_line w
          = (Raise e, w))
  /\ (console_print (refusal_message deb_line) = Ok tt ->
      (forall before after package_data w,
          process_deb_lines console_print http_get gunzip
            (before ++ deb_line :: after) package_data w
          = process_deb_lines console_print http_get gunzip
              (before ++ after) package_data w)
      /\ (forall before after w,
             build_catalog version_compare console_print http_get gunzip
               (before ++ deb_line :: after) w
             = build_catalog version_compare console_print http_get gunzip
                 (before ++ after) w))
  /\ (forall e,
         console_print (refusal_message deb_line) = Raise e ->
         (forall after package_data w,
             process_deb_lines console_print http_get gunzip
               (deb_line :: after) package_data w
             = (Raise e, w))
         /\ (forall after w,
                build_catalog version_compare console_print http_get gunzip
                  (deb_line :: after) w
                = (Raise e, w)))
  /\ (forall sources_line before after,
         dropped sources_line ->
         filter_sources_lines (before ++ sources_line :: after)
         = filter_sources_lines (before ++ after)).
Proof.
  intros Hskip.
  split_and!; [| | |apply FetcherFacts.filter_sources_lines_dropped].
  - intros w.
    destruct (FetcherFacts.skipped_raises console_print http_get gunzip
                deb_line w Hskip)
      as [-> | ->]; eexists; (split; [|done]); auto.
  - intros Hprint. split.
    + intros. by apply FetcherFacts.process_without.
    + intros before after w. unfold build_catalog, mbind, io_bind.
      by rewrite FetcherFacts.process_without.
  - intros e Hprint. split.
    + intros. by rewrite FetcherFacts.process_refused, Hprint.
    + intros after w. unfold build_catalog, mbind, io_bind.
      by rewrite FetcherFacts.process_refused, Hprint.
Qed.

Lemma refused_line_run_witness :
  skipped "deb cdrom:[/x]/ bookworm main"
  /\ Samples.console (refusal_message "deb cdrom:[/x]/ bookworm main")
     = Raise MarkupError
  /\ build_catalog DebVersion.compare Samples.console Samples.no_network Ok
       ["deb cdrom:[/x]/ bookworm main";
        "deb http://example.test/debian bookworm main"]
       Samples.cached_world
     = (Raise MarkupError, Samples.cached_world).
Proof.
  split_and!; [reflexivity | reflexivity |].
  exact (proj2 (proj1 (proj2 (proj2 (refused_line_run DebVersion.compare
                                       Samples.console Samples.no_network Ok
                                       "deb cdrom:[/x]/ bookworm main" I)))
                  MarkupError eq_refl)
           ["deb http://example.test/debian bookworm main"]
           Samples.cached_world).
Defined.

(** * Further properties *)

(** ** The control record parser: errors and keys *)

Module ParserMore.
Import PyStr PyStrFacts Parser ParserFacts.

Lemma lstrip_all p s : all_chars p s = true -> lstrip p s = "".
Proof.
  induction s as [|c s IH]; [done|]. simpl.
  intros [Hc Hs]%andb_true_iff. rewrite Hc. auto.
Qed.

Lemma lower_char_idem c : lower_char (lower_char c) = lower_char c.
Proof.
  destruct c as [[] [] [] [] [] [] [] []]; reflexivity.
Qed.

Lemma lower_idem s : lower (lower s) = lower s.
Proof.
  induction s as [|c s IH]; [done|]. simpl. by rewrite lower_char_idem, IH.
Qed.

(** Once the look-ahead has found a continuation line, the rest of the
    iteration gets a list of lines to join. *)
Lemma continuations_some {A} (k : option (list string) -> list string -> A)
    lines e :
  exists e' lines', continuations k lines (Some e) = k (Some e') lines'.
Proof.
  revert e. induction lines as [|l lines IH]; intros e; cbn [continuations].
  - by exists e, [].
  - destruct (startswith l " "); [apply IH | by exists e, (l :: lines)].
Qed.

Lemma continuations_ext {A} (k1 k2 : option (list string) -> list string -> A)
    lines e :
  (forall e' lines', k1 e' lines' = k2 e' lines') ->
  continuations k1 lines e = continuations k2 lines e.
Proof.
  intros Hk. revert e.
  induction lines as [|l lines IH]; intros e; cbn [continuations]; [done|].
  destruct (startswith l " "); [apply IH | done].
Qed.

End ParserMore.

(** X1.  A stanza text made of newlines only is not skipped by the catalog
    loop unless it is the empty text: its single line is empty, has no
    separator, and the parser raises [ValueError]. *)
Theorem blank_stanza (package : string) :
  PyStr.all_chars PyStr.is_nl package = true ->
  Parser.parse_package_metadata package = Raise ValueError
  /\ forall version_compare packages,
       add_package version_compare packages package
       = if String.eqb package "" then Ok packages else Raise ValueError.
Proof.
  intros Hnl.
  assert (Parser.parse_package_metadata package = Raise ValueError) as Hp.
  { unfold Parser.parse_package_metadata, PyStr.strip_nl, PyStr.strip_by.
    by rewrite (ParserMore.lstrip_all _ _ Hnl). }
  split; [done|]. intros vc packages. unfold add_package.
  destruct (String.eqb package ""); [done|]. by rewrite Hp.
Qed.

Lemma blank_stanza_witness :
  PyStr.all_chars PyStr.is_nl (nl +:+ nl) = true
  /\ add_package DebVersion.compare ∅ (nl +:+ nl) = Raise ValueError.
Proof.
  split; [reflexivity|].
  exact (proj2 (blank_stanza (nl +:+ nl) eq_refl) DebVersion.compare ∅).
Defined.

(** X2.  A [Size] field followed by a continuation line never parses: the
    value was turned into an integer, which cannot be joined with the
    popped lines ([TypeError]), unless it was no integer literal in the
    first place ([ValueError]). *)
Theorem size_with_continuation (line v c : string) (rest : list string)
    (pkg : fields) :
  PyStr.split_once line ": " = Some ("Size", v) ->
  PyStr.startswith c " " = true ->
  Parser.parse_lines (line :: c :: rest) pkg
  = match PyStr.int v with
    | Some _ => Raise TypeError
    | None => Raise ValueError
    end.
Proof.
  intros Hsplit Hc. cbn [Parser.parse_lines]. unfold Parser.split_header.
  rewrite Hsplit. cbn. unfold Parser.coerce_size. cbn.
  destruct (PyStr.int v) as [n|]; [|done]. cbn. rewrite Hc.
  match goal with |- Parser.continuations ?k _ (Some ?e) = _ =>
    destruct (ParserMore.continuations_some k rest e) as (e' & lines' & ->)
  end.
  reflexivity.
Qed.

Lemma size_with_continuation_witness :
  Parser.parse_lines ["Size: 12"; " more"; "Package: a"] ∅ = Raise TypeError.
Proof.
  apply (size_with_continuation "Size: 12" "12" " more" ["Package: a"] ∅);
    reflexivity.
Defined.

(** X3.  Every key of a parsed record is in lower case: lower-casing it
    again changes nothing. *)
Theorem keys_are_lower_case (package : string) (pkg : fields)
    (key : string) (v : value) :
  Parser.parse_package_metadata package = Ok pkg ->
  pkg !! key = Some v ->
  PyStr.lower key = key.
Proof.
  intros Hp. revert key v.
  eapply (ParserFacts.parse_lines_invariant
            (fun pkg => forall key v, pkg !! key = Some v ->
                                      PyStr.lower key = key));
    [| |exact Hp].
  - intros k s v0 e v' pkg' HI _ _ key v.
    destruct (decide (PyStr.lower k = key)) as [<-|Hne].
    + intros _. apply ParserMore.lower_idem.
    + rewrite lookup_insert_ne by done. apply HI.
  - intros key v. by rewrite lookup_empty.
Qed.

Lemma keys_are_lower_case_witness :
  Parser.parse_package_metadata ("Package: a" +:+ nl +:+ "Installed-Size: 4")
  = Ok {[ "package" := VStr "a"; "installed-size" := VStr "4" ]}
  /\ PyStr.lower "installed-size" = "installed-size".
Proof.
  split; [reflexivity|].
  apply (keys_are_lower_case ("Package: a" +:+ nl +:+ "Installed-Size: 4")
           {[ "package" := VStr "a"; "installed-size" := VStr "4" ]}
           "installed-size" (VStr "4")); reflexivity.
Defined.

(** X4.  Field names collide without regard to case, and the later field
    wins: a one-line field directly followed by a field whose name has the
    same lower-casing leaves no trace in the record. *)
Theorem later_field_wins (l1 l2 k1 v1 k2 v2 : string) (rest : list string)
    (pkg : fields) :
  PyStr.split_once l1 ": " = Some (k1, v1) ->
  PyStr.split_once l2 ": " = Some (k2, v2) ->
  PyStr.lower k1 = PyStr.lower k2 ->
  k1 <> "Size" ->
  PyStr.startswith l2 " " = false ->
  Parser.parse_lines (l1 :: l2 :: rest) pkg
  = Parser.parse_lines (l2 :: rest) pkg.
Proof.
  intros H1 H2 Hk Hsize Hl2.
  change (l1 :: l2 :: rest) with (l1 :: [] ++ l2 :: rest)%list.
  rewrite (ParserFacts.parse_lines_field l1 k1 v1); [|done|constructor|done].
  unfold Parser.coerce_size at 1.
  destruct (String.eqb_spec k1 "Size"); [done|]. cbn.
  cbn [Parser.parse_lines]. unfold Parser.split_header. rewrite H2. cbn.
  destruct (Parser.coerce_size k2 v2) as [v0|]; [|done]. cbn.
  apply ParserMore.continuations_ext. intros e' lines'.
  destruct (Parser.folded v0 e') as [v'|]; [|done]. cbn.
  by rewrite Hk, insert_insert_eq.
Qed.

Lemma later_field_wins_witness :
  Parser.parse_lines ["Package: a"; "PACKAGE: b"; "Version: 1"] ∅
  = Ok {[ "package" := VStr "b"; "version" := VStr "1" ]}.
Proof.
  rewrite (later_field_wins "Package: a" "PACKAGE: b" "Package" "a"
             "PACKAGE" "b" ["Version: 1"] ∅); [reflexivity|..];
    first [reflexivity | discriminate].
Defined.

(** ** The catalog loop *)

Module CatalogFacts.

Lemma store_inv version_compare packages name pkg packages' :
  store version_compare packages name pkg = Ok packages' ->
  exists r, packages' = <[name := r]> packages
            /\ (r = pkg \/ packages !! name = Some r).
Proof.
  unfold store. destruct (packages !! name) as [existing|] eqn:Hex.
  - unfold get_larger_version. intros H.
    destruct (getattr existing "version") as [v1|]; cbn in H; [|done].
    destruct (getattr pkg "version") as [v2|]; cbn in H; [|done].
    destruct (as_text v1) as [s1|]; cbn in H; [|done].
    destruct (as_text v2) as [s2|]; cbn in H; [|done].
    destruct (version_compare s1 s2 >=? 1)%Z; cbn in H;
      injection H as <-; eauto.
  - intros [= <-]. eauto.
Qed.

Lemma add_package_inv version_compare packages stanza packages' :
  add_package version_compare packages stanza = Ok packages' ->
  (stanza = "" /\ packages' = packages)
  \/ exists pkg name,
       stanza <> ""
       /\ Parser.parse_package_metadata stanza = Ok pkg
       /\ pkg !! "package" = Some (VStr name)
       /\ store version_compare packages name pkg = Ok packages'.
Proof.
  unfold add_package. destruct (String.eqb_spec stanza "") as [->|Hne].
  - intros [= <-]. by left.
  - destruct (Parser.parse_package_metadata stanza) as [pkg|]; [|done].
    cbn. unfold getattr.
    destruct (pkg !! "package") as [[name|n]|] eqn:Hname; [|done..].
    cbn. intros Hstore. right. by exists pkg, name.
Qed.

Lemma add_packages_app version_compare packages a b :
  add_packages version_compare packages (a ++ b)
  = packages' ← add_packages version_compare packages a;
    add_packages version_compare packages' b.
Proof.
  revert packages. induction a as [|x a IH]; intros packages; [done|].
  cbn [app add_packages].
  destruct (add_package version_compare packages x) as [p1|]; [|done].
  cbn. apply IH.
Qed.

End CatalogFacts.

(** X5.  A record without a version can be stored only under a name the
    catalog does not hold yet: when the name is there already, the
    comparison reads [version] off both records and the loop ends with an
    [AttributeError]. *)
Theorem versionless_record (version_compare : string -> string -> Z)
    (packages : gmap string fields) (stanza : string) (pkg : fields)
    (name : string) :
  stanza <> "" ->
  Parser.parse_package_metadata stanza = Ok pkg ->
  pkg !! "package" = Some (VStr name) ->
  pkg !! "version" = None ->
  add_package version_compare packages stanza
  = match packages !! name with
    | None => Ok (<[name := pkg]> packages)
    | Some _ => Raise AttributeError
    end.
Proof.
  intros Hne Hparse Hname Hver. unfold add_package.
  destruct (String.eqb_spec stanza ""); [done|].
  rewrite Hparse. cbn. unfold getattr. rewrite Hname. cbn. unfold store.
  destruct (packages !! name) as [existing|]; [|done].
  unfold get_larger_version, getattr. rewrite Hver.
  by destruct (existing !! "version").
Qed.

Lemma versionless_record_witness :
  add_package DebVersion.compare {[ "a" := Samples.record_of Samples.first_a ]}
    "Package: a"
  = Raise AttributeError.
Proof.
  rewrite (versionless_record DebVersion.compare
             {[ "a" := Samples.record_of Samples.first_a ]}
             "Package: a" {[ "package" := VStr "a" ]} "a");
    first [reflexivity | discriminate].
Defined.

(** X6.  Whatever the version comparison answers, a record the loop leaves
    in the catalog under a name was there before under that name, or is
    the parse of one of the stanzas read, whose [package] field is that
    name: records are never merged, altered or filed under another name. *)
Theorem catalog_records (version_compare : string -> string -> Z)
    (packages packages' : gmap string fields) (package_data : list string)
    (name : string) (r : fields) :
  add_packages version_compare packages package_data = Ok packages' ->
  packages' !! name = Some r ->
  packages !! name = Some r
  \/ exists stanza,
       stanza ∈ package_data
       /\ Parser.parse_package_metadata stanza = Ok r
       /\ r !! "package" = Some (VStr name).
Proof.
  revert packages.
  induction package_data as [|stanza rest IH]; intros packages Hrun Hr.
  - injection Hrun as <-. by left.
  - cbn [add_packages] in Hrun.
    destruct (add_package version_compare packages stanza) as [p1|] eqn:H1;
      [|done].
    cbn in Hrun. destruct (IH p1 Hrun Hr) as [Hp1|(s & Hs & Hp & Hn)].
    + apply CatalogFacts.add_package_inv in H1
        as [[_ ->]|(pkg & n & _ & Hparse & Hname & Hstore)]; [by left|].
      apply CatalogFacts.store_inv in Hstore as (r' & -> & Hr').
      destruct (decide (n = name)) as [->|Hne].
      * rewrite lookup_insert_eq in Hp1. injection Hp1 as ->.
        destruct Hr' as [->|Hold]; [|by left].
        right. exists stanza. split_and!; [apply list_elem_of_here|done..].
      * rewrite lookup_insert_ne in Hp1 by done. by left.
    + right. exists s. split_and!; [by apply list_elem_of_further|done..].
Qed.

Lemma catalog_records_witness :
  add_packages DebVersion.compare ∅ [Samples.first_a; Samples.second_a]
  = Ok {[ "a" := Samples.record_of Samples.second_a ]}
  /\ ((∅ : gmap string fields) !! "a" = Some (Samples.record_of Samples.second_a)
      \/ exists stanza,
           stanza ∈ [Samples.first_a; Samples.second_a]
           /\ Parser.parse_package_metadata stanza
              = Ok (Samples.record_of Samples.second_a)
           /\ Samples.record_of Samples.second_a !! "package"
              = Some (VStr "a")).
Proof.
  split; [reflexivity|].
  apply (catalog_records DebVersion.compare ∅
           {[ "a" := Samples.record_of Samples.second_a ]}
           [Samples.first_a; Samples.second_a] "a"); reflexivity.
Defined.

(** X7.  The loop never drops a name: a name in the catalog before the
    loop is in it afterwards, and so is the name of every stanza read. *)
Theorem catalog_names_kept (version_compare : string -> string -> Z)
    (packages packages' : gmap string fields) (package_data : list string) :
  add_packages version_compare packages package_data = Ok packages' ->
  (forall name, is_Some (packages !! name) -> is_Some (packages' !! name))
  /\ (forall stanza pkg name,
        stanza ∈ package_data ->
        stanza <> "" ->
        Parser.parse_package_metadata stanza = Ok pkg ->
        pkg !! "package" = Some (VStr name) ->
        is_Some (packages' !! name)).
Proof.
  revert packages.
  induction package_data as [|stanza rest IH]; intros packages Hrun.
  - injection Hrun as <-. split; [done|].
    intros s pkg name Hin. by apply elem_of_nil in Hin.
  - cbn [add_packages] in Hrun.
    destruct (add_package version_compare packages stanza) as [p1|] eqn:H1;
      [|done].
    cbn in Hrun. destruct (IH p1 Hrun) as [Hkeep Hnew].
    apply CatalogFacts.add_package_inv in H1
      as [[-> ->]|(pkg & n & Hne & Hparse & Hname & Hstore)].
    + split; [done|]. intros s pkg name [->|Hin]%elem_of_cons; [done|].
      by apply Hnew.
    + apply CatalogFacts.store_inv in Hstore as (r' & -> & _). split.
      * intros name Hsome. apply Hkeep.
        destruct (decide (n = name)) as [->|Hneq].
        -- rewrite lookup_insert_eq. eauto.
        -- by rewrite lookup_insert_ne.
      * intros s pkg' name [->|Hin]%elem_of_cons; [|by apply Hnew].
        intros _ Hparse' Hname'. rewrite Hparse in Hparse'.
        injection Hparse' as <-. rewrite Hname in Hname'.
        injection Hname' as <-. apply Hkeep. rewrite lookup_insert_eq. eauto.
Qed.

Lemma catalog_names_kept_witness :
  add_packages DebVersion.compare Samples.catalog_a [Samples.only_b]
  = Ok (<["b" := Samples.record_of Samples.only_b]> Samples.catalog_a)
  /\ is_Some (<["b" := Samples.record_of Samples.only_b]> Samples.catalog_a
                !! "a")
  /\ is_Some (<["b" := Samples.record_of Samples.only_b]> Samples.catalog_a
                !! "b").
Proof.
  pose proof (catalog_names_kept DebVersion.compare Samples.catalog_a
                (<["b" := Samples.record_of Samples.only_b]> Samples.catalog_a)
                [Samples.only_b] eq_refl) as [Hkeep Hnew].
  split_and!; [reflexivity| |].
  - apply Hkeep. by eexists.
  - apply (Hnew Samples.only_b (Samples.record_of Samples.only_b) "b");
      first [reflexivity | discriminate | apply list_elem_of_here].
Defined.

(** X8.  Where the loop of [aptparser.py] builds a catalog, the loop of
    [apt-mirror.py] builds the same one from the same stanzas, whatever
    name an earlier run of its body left behind. *)
Theorem mirror_loop_agrees (version_compare : string -> string -> Z)
    (packages packages' : gmap string fields) (package_data : list string)
    (name : option string) :
  add_packages version_compare packages package_data = Ok packages' ->
  exists name',
    mirror_add_packages version_compare (packages, name) package_data
    = Ok (packages', name').
Proof.
  revert packages name.
  induction package_data as [|stanza rest IH]; intros packages name Hrun.
  - injection Hrun as <-. by exists name.
  - cbn [add_packages] in Hrun.
    destruct (add_package version_compare packages stanza) as [p1|] eqn:H1;
      [|done].
    cbn in Hrun. cbn [mirror_add_packages].
    apply CatalogFacts.add_package_inv in H1
      as [[-> ->]|(pkg & n & Hne & Hparse & Hname & Hstore)].
    + cbn. by apply IH.
    + unfold mirror_add_package.
      destruct (String.eqb_spec stanza ""); [done|].
      rewrite Hparse. cbn. rewrite Hname. cbn. rewrite Hstore. cbn.
      by apply IH.
Qed.

Lemma mirror_loop_agrees_witness :
  exists name',
    mirror_add_packages DebVersion.compare (∅, None)
      [Samples.first_a; Samples.only_b]
    = Ok ({[ "a" := Samples.record_of Samples.first_a;
             "b" := Samples.record_of Samples.only_b ]}, name').
Proof.
  apply (mirror_loop_agrees DebVersion.compare ∅
           {[ "a" := Samples.record_of Samples.first_a;
              "b" := Samples.record_of Samples.only_b ]}
           [Samples.first_a; Samples.only_b] None).
  reflexivity.
Defined.

(** ** The parsing path and the world *)

Module WorldFacts.
Import PyStr.

Lemma reads_only_refl P w : reads_only P w w.
Proof. split; [done|]. exists []. by rewrite app_nil_r. Qed.

Lemma reads_only_trans P w1 w2 w3 :
  reads_only P w1 w2 -> reads_only P w2 w3 -> reads_only P w1 w3.
Proof.
  intros [Hfs1 (u1 & Hr1 & HP1)] [Hfs2 (u2 & Hr2 & HP2)]. split.
  - by rewrite Hfs2.
  - exists (u1 ++ u2)%list. split; [|by apply Forall_app].
    by rewrite Hr2, Hr1, app_assoc.
Qed.

Lemma reads_only_one (P : string -> Prop) w url :
  P url ->
  reads_only P w {| fs := fs w; requests := (requests w ++ [url])%list |}.
Proof. intros HP. split; [done|]. exists [url]. split; [done|]. by constructor. Qed.

Lemma endswith_app a b : endswith (a +:+ b) b = true.
Proof.
  induction a as [|c a IH].
  - destruct b; cbn; by rewrite ?Ascii.eqb_refl, ?String.eqb_refl.
  - change (String c a +:+ b) with (String c (a +:+ b)). cbn [endswith].
    rewrite IH. apply orb_true_r.
Qed.

Lemma packages_url_index source_url release component :
  index_url (packages_url source_url release component).
Proof.
  unfold index_url, packages_url. cbn [Os.join fold_left].
  match goal with |- endswith (Os.join2 ?a ?b) _ = _ =>
    destruct (FetcherFacts.join2_shape a b eq_refl) as (sep & _ & ->)
  end.
  rewrite <- PyStrFacts.str_app_assoc. apply endswith_app.
Qed.

Section World.
Context (console_print : string -> result unit)
  (http_get : string -> result response) (gunzip : string -> result string).

Lemma fetch_index_reads packages_file w :
  reads_only (fun url => url = packages_file) w
    (fetch_index console_print http_get gunzip packages_file w).2.
Proof.
  unfold fetch_index, mbind, io_bind, lift, raise, mret, io_ret, Os.isfile,
    Os.read, requests_get.
  destruct (local_cache_path packages_file) as [path|]; cbn;
    [|apply reads_only_refl].
  destruct (fs w !! path) as [[data|]|] eqn:Hpath; cbn;
    rewrite ?Hpath; cbn; try apply reads_only_refl;
    (destruct (http_get packages_file) as [req|]; cbn;
     [destruct (status_code req =? 200)%Z; cbn;
      [destruct (gunzip (content req)) | destruct (console_print _)]|];
     by apply reads_only_one).
Qed.

Lemma fetch_components_reads url release components :
  forall release_data w,
    reads_only index_url w
      (fetch_components console_print http_get gunzip url release components
         release_data w).2.
Proof.
  induction components as [|c components IH]; intros release_data w;
    cbn [fetch_components]; [apply reads_only_refl|].
  unfold mbind, io_bind at 1.
  pose proof (fetch_index_reads (packages_url url release c) w)
    as [Hfs (urls & Hr & HP)].
  assert (reads_only index_url w
            (fetch_index console_print http_get gunzip
               (packages_url url release c) w).2)
    as Hstep.
  { split; [done|]. exists urls. split; [done|].
    eapply Forall_impl; [exact HP|]. intros u ->.
    apply packages_url_index. }
  destruct (fetch_index console_print http_get gunzip
              (packages_url url release c) w)
    as [[[data status]|e] w1]; [|exact Hstep].
  unfold mbind, io_bind at 1. unfold lift at 1.
  destruct (console_print _); [|exact Hstep].
  eapply reads_only_trans; [exact Hstep | apply IH].
Qed.

Lemma get_packages_reads deb_line w :
  reads_only index_url w
    (get_packages_from_deb_line console_print http_get gunzip deb_line w).2.
Proof.
  unfold get_packages_from_deb_line.
  destruct (Re.rmatch SOURCES_LINE_PAT _) as [[results rest]|];
    [|apply reads_only_refl].
  destruct (String.eqb _ "deb-src"); [apply reads_only_refl|]. cbv zeta.
  unfold mbind, io_bind at 1.
  match goal with |- context [fetch_components _ _ _ ?u ?r ?c ?d w] =>
    pose proof (fetch_components_reads u r c d w) as Hstep;
    destruct (fetch_components console_print http_get gunzip u r c d w)
      as [[out|e] w1]
  end; [|exact Hstep].
  unfold mbind, io_bind, lift, mret, io_ret.
  destruct (Nat.eqb _ 1); [exact Hstep|].
  by destruct (console_print _).
Qed.

Lemma process_deb_lines_reads deb_lines :
  forall package_data w,
    reads_only index_url w
      (process_deb_lines console_print http_get gunzip deb_lines
         package_data w).2.
Proof.
  induction deb_lines as [|l deb_lines IH]; intros package_data w;
    cbn [process_deb_lines]; [apply reads_only_refl|].
  pose proof (get_packages_reads l w) as Hstep.
  destruct (get_packages_from_deb_line console_print http_get gunzip l w)
    as [[rd|e] w1].
  - eapply reads_only_trans; [exact Hstep | apply IH].
  - destruct e; try exact Hstep; unfold mbind, io_bind, lift;
      (case_match; [|exact Hstep]);
      (eapply reads_only_trans; [exact Hstep | apply IH]).
Qed.

Lemma source_files_world source w :
  (source_files console_print source w).2 = w.
Proof.
  unfold source_files, mbind, io_bind, lift, Os.isfile, Os.isdir, Os.listdir.
  cbn. destruct (fs w !! source) as [[|]|] eqn:Hs; cbn; rewrite ?Hs;
    try done; by destruct (console_print _).
Qed.

Lemma collect_package_files_world package_sources w :
  (collect_package_files console_print package_sources w).2 = w.
Proof.
  induction package_sources as [|s rest IH]; [done|].
  cbn [collect_package_files]. unfold mbind, io_bind at 1.
  pose proof (source_files_world s w) as Hs.
  destruct (source_files console_print s w) as [[here|e] w1]; cbn in Hs;
    subst w1; [|done].
  unfold mbind, io_bind.
  destruct (collect_package_files console_print rest w) as [[more|e] w1];
    cbn in IH; by subst w1.
Qed.

Lemma read_lines_world listfiles w : (read_lines listfiles w).2 = w.
Proof.
  induction listfiles as [|f rest IH]; [done|].
  cbn [read_lines]. unfold mbind, io_bind at 1, Os.read.
  destruct (fs w !! f) as [[data|]|]; [|done..].
  unfold mbind, io_bind.
  destruct (read_lines rest w) as [[more|e] w1]; cbn in IH; by subst w1.
Qed.

Lemma get_deb_lines_world package_sources w :
  (get_deb_lines console_print package_sources w).2 = w.
Proof.
  unfold get_deb_lines. unfold mbind, io_bind at 1.
  pose proof (collect_package_files_world package_sources w) as Hc.
  destruct (collect_package_files console_print package_sources w)
    as [[files|e] w1]; cbn in Hc; subst w1; [|done].
  unfold mbind, io_bind.
  pose proof (read_lines_world
                (filter (fun lf => endswith lf ".list" = true) files) w) as Hr.
  destruct (read_lines _ w) as [[ls|e] w1]; cbn in Hr; subst w1; [|done].
  by destruct (filter_sources_lines ls).
Qed.

Lemma main_deb_lines_world sources w :
  (main_deb_lines console_print sources w).2 = w.
Proof.
  unfold main_deb_lines.
  pose proof (get_deb_lines_world
                (match sources with [] => SOURCES | _ => sources end) w) as H.
  destruct (get_deb_lines console_print _ w) as [[ls|e] w1]; cbn in H;
    subst w1; [done|].
  by destruct e.
Qed.

End World.

End WorldFacts.

(** X9.  The parsing path of [main], from the source lists to the totals,
    creates and changes no file, and the only requests it makes are for
    [binary-amd64/Packages.gz] indexes, whatever the lists hold and however
    the run ends. *)
Theorem parsing_reads_only (version_compare : string -> string -> Z)
    (console_print : string -> result unit)
    (http_get : string -> result response) (gunzip : string -> result string)
    (sources : list string) (w : world) :
  reads_only index_url w
    (main_parse version_compare console_print http_get gunzip sources w).2.
Proof.
  unfold main_parse. unfold mbind, io_bind at 1.
  pose proof (WorldFacts.main_deb_lines_world console_print sources w) as Hd.
  destruct (main_deb_lines console_print sources w) as [[deb_lines|e] w1];
    cbn in Hd; subst w1; [|apply WorldFacts.reads_only_refl].
  unfold build_catalog, mbind, io_bind, lift, mret, io_ret.
  pose proof (WorldFacts.process_deb_lines_reads console_print http_get gunzip
                deb_lines [] w) as Hp.
  destruct (process_deb_lines console_print http_get gunzip deb_lines [] w)
    as [[package_data|e] w1]; cbn in Hp; [|exact Hp].
  destruct (add_packages version_compare ∅ package_data) as [packages|];
    [|exact Hp].
  by destruct (totals packages).
Qed.

(** X10.  An index that is not in the cache and that the server answers
    with a status other than 200 is not passed over like a refused line:
    once the message about the status is printed, the run ends there with
    a [ValueError], after that one request, and the lines after it are
    never read. *)
Theorem failed_fetch_ends_run (console_print : string -> result unit)
    (http_get : string -> result response)
    (gunzip : string -> result string) (deb_line : string)
    (rest package_data : list string) (w : world) (results : Re.groups)
    (tail component packages_file path : string) (others : list string)
    (req : response) :
  Re.rmatch SOURCES_LINE_PAT (Re.sub_empty COMMENT_PAT deb_line)
    = Some (results, tail) ->
  group results "source_type" <> "deb-src" ->
  Re.split SPACES_PAT (group results "components") = component :: others ->
  packages_file
    = packages_url (group results "url") (group results "release") component ->
  local_cache_path packages_file = Ok path ->
  (forall data, fs w !! path <> Some (File data)) ->
  http_get packages_file = Ok req ->
  status_code req <> 200%Z ->
  console_print ("Got status code " +:+ PyStr.str_of_int (status_code req)
                 +:+ " from URL " +:+ packages_file) = Ok tt ->
  process_deb_lines console_print http_get gunzip (deb_line :: rest)
    package_data w
  = (Raise ValueError,
     {| fs := fs w; requests := (requests w ++ [packages_file])%list |}).
Proof.
  intros Hmatch Htype Hsplit Hfile Hpath Hnofile Hget Hstatus Hprint.
  cbn [process_deb_lines]. unfold get_packages_from_deb_line.
  rewrite Hmatch. destruct (String.eqb_spec (group results "source_type")
                              "deb-src"); [done|].
  cbv zeta. rewrite Hsplit. cbn [fetch_components]. rewrite <- Hfile.
  unfold mbind at 1, io_bind at 1. unfold mbind at 1, io_bind at 1.
  unfold fetch_index. rewrite Hpath.
  unfold mbind, io_bind, lift, raise, Os.isfile, requests_get.
  cbn -[String.append PyStr.str_of_int].
  destruct (fs w !! path) as [[data|]|] eqn:Hfs;
    [by destruct (Hnofile data)|..];
    rewrite Hget; cbn -[String.append PyStr.str_of_int];
    destruct (Z.eqb_spec (status_code req) 200);
    try done; by rewrite Hprint.
Qed.

Lemma failed_fetch_ends_run_witness :
  process_deb_lines Samples.console Samples.not_found Ok
    ["deb http://example.test/debian bookworm main";
     "deb http://example.test/debian trixie main"] []
    {| fs := ∅; requests := [] |}
  = (Raise ValueError,
     {| fs := ∅;
        requests := ["http://example.test/debian/dists/bookworm/main/binary-amd64/Packages.gz"] |}).
Proof.
  apply (failed_fetch_ends_run Samples.console Samples.not_found Ok
           "deb http://example.test/debian bookworm main"
           ["deb http://example.test/debian trixie main"] []
           {| fs := ∅; requests := [] |}
           {[ "source_type" := "deb"; "url" := "http://example.test/debian";
              "release" := "bookworm"; "components" := "main" ]}
           "" "main"
           "http://example.test/debian/dists/bookworm/main/binary-amd64/Packages.gz"
           "/var/lib/apt/lists/example.test_debian_dists_bookworm_main_binary-amd64_Packages"
           []
           {| status_code := 404; content := "Not Found";
              content_length := Some "9" |});
    first [by vm_compute | reflexivity | discriminate | done].
Defined.

(** X11.  A component that starts with a slash makes [os.path.join] drop
    the base URL, so the index URL has no scheme: the loop over the
    components ends with an [AttributeError] before anything is read or
    requested. *)
Theorem absolute_component (console_print : string -> result unit)
    (http_get : string -> result response)
    (gunzip : string -> result string) (source_url release component : string)
    (others release_data : list string) (w : world) :
  PyStr.startswith component "/" = true ->
  fetch_components console_print http_get gunzip source_url release
    (component :: others) release_data w
  = (Raise AttributeError, w).
Proof.
  intros Habs. cbn [fetch_components]. unfold mbind, io_bind at 1.
  assert (local_cache_path (packages_url source_url release component)
          = Raise AttributeError) as Hpath.
  { unfold packages_url. cbn [Os.join fold_left].
    match goal with |- local_cache_path (Os.join2 (Os.join2 ?a _) ?b) = _ =>
      replace (Os.join2 a component) with component
        by (unfold Os.join2; by rewrite Habs);
      destruct (FetcherFacts.join2_shape component b eq_refl)
        as (sep & _ & ->)
    end.
    destruct component as [|c component]; [done|].
    unfold PyStr.startswith in Habs.
    rewrite FetcherFacts.prefix_char in Habs.
    apply Ascii.eqb_eq in Habs as <-. reflexivity. }
  unfold fetch_index. by rewrite Hpath.
Qed.

Lemma absolute_component_witness :
  fetch_components Samples.console Samples.no_network Ok
    "http://example.test/debian" "bookworm" ["/main"] [] Samples.cached_world
  = (Raise AttributeError, Samples.cached_world).
Proof.
  apply (absolute_component Samples.console Samples.no_network Ok
           "http://example.test/debian" "bookworm" "/main" [] []
           Samples.cached_world).
  reflexivity.
Defined.

(** X12.  When every declaration line found is refused and the message
    about each is printed, nothing is fetched, the catalog stays empty, and
    [main] ends with the [ValueError] of [max] on an empty list: the totals
    are computed before anything else is done with the catalog. *)
Theorem nothing_parsed (version_compare : string -> string -> Z)
    (console_print : string -> result unit)
    (http_get : string -> result response) (gunzip : string -> result string)
    (sources deb_lines : list string) (w w' : world) :
  main_deb_lines console_print sources w = (Ok deb_lines, w') ->
  Forall (fun deb_line =>
            skipped deb_line
            /\ console_print (refusal_message deb_line) = Ok tt) deb_lines ->
  main_parse version_compare console_print http_get gunzip sources w
  = (Raise ValueError, w).
Proof.
  intros Hlines Hskipped.
  pose proof (WorldFacts.main_deb_lines_world console_print sources w) as Hw.
  rewrite Hlines in Hw. cbn in Hw. subst w'.
  unfold main_parse. unfold mbind, io_bind at 1. rewrite Hlines.
  unfold build_catalog. unfold mbind, io_bind at 1. unfold mbind, io_bind at 1.
  assert (process_deb_lines console_print http_get gunzip deb_lines [] w
          = (Ok [], w)) as ->.
  { clear Hlines. induction Hskipped as [|l ls [Hl Hprint] _ IH]; [done|].
    by rewrite FetcherFacts.process_skipped. }
  reflexivity.
Qed.

Lemma nothing_parsed_witness :
  main_parse DebVersion.compare Samples.console Samples.no_network Ok []
    Samples.cdrom_world
  = (Raise ValueError, Samples.cdrom_world).
Proof.
  apply (nothing_parsed DebVersion.compare Samples.console Samples.no_network
           Ok [] ["deb cdrom:/media bookworm main"]
           Samples.cdrom_world Samples.cdrom_world).
  - reflexivity.
  - repeat constructor.
Defined.

(** ** The source lists *)

Module SourcesFacts.
Import PyStr.

Lemma filter_sources_lines_shape ls :
  Forall (fun l => startswith l "deb" = true
                   /\ startswith l "deb-src" = false)
    (filter_sources_lines ls).
Proof.
  induction ls as [|l ls IH]; cbn [filter_sources_lines]; [constructor|].
  destruct (startswith _ "deb-src") eqn:Hsrc; [done|].
  destruct (startswith _ "deb") eqn:Hdeb; [|done].
  by constructor.
Qed.

Lemma collect_nothing console_print w package_sources :
  Forall (fun s => fs w !! s = None
                   \/ (exists data, fs w !! s = Some (File data))
                      /\ endswith s ".list" = false
                      /\ console_print ("Adding file " +:+ s) = Ok tt)
    package_sources ->
  exists files,
    collect_package_files console_print package_sources w = (Ok files, w)
    /\ filter (fun lf => endswith lf ".list" = true) files = [].
Proof.
  induction 1 as [|s rest Hs _ (files & IH & Hfilter)].
  - by exists [].
  - cbn [collect_package_files]. unfold mbind, io_bind at 1.
    destruct Hs as [Hnone | ((data & Hfile) & Hsuffix & Hprint)].
    + assert (source_files console_print s w = (Ok [], w)) as ->.
      { unfold source_files, mbind, io_bind, Os.isfile, Os.isdir. cbn.
        rewrite Hnone. cbn. by rewrite Hnone. }
      unfold mbind, io_bind. rewrite IH. by exists files.
    + assert (source_files console_print s w = (Ok [s], w)) as ->.
      { unfold source_files, mbind, io_bind, lift, Os.isfile.
        cbn -[String.append]. by rewrite Hfile, Hprint. }
      unfold mbind, io_bind. rewrite IH. exists (s :: files).
      split; [done|]. rewrite filter_cons_False; [done|].
      by rewrite Hsuffix.
Qed.

End SourcesFacts.

(** X13.  What [get_deb_lines] returns is never empty, every line of it
    starts with [deb] and none with [deb-src], and finding it changed
    nothing: no file, no request. *)
Theorem deb_lines_shape (console_print : string -> result unit)
    (package_sources lines : list string) (w w' : world) :
  get_deb_lines console_print package_sources w = (Ok lines, w') ->
  w' = w
  /\ lines <> []
  /\ Forall (fun l => PyStr.startswith l "deb" = true
                      /\ PyStr.startswith l "deb-src" = false) lines.
Proof.
  intros Hrun.
  pose proof (WorldFacts.get_deb_lines_world console_print package_sources w)
    as Hw.
  rewrite Hrun in Hw. cbn in Hw. split; [done|].
  unfold get_deb_lines in Hrun. unfold mbind, io_bind at 1 in Hrun.
  destruct (collect_package_files console_print package_sources w)
    as [[files|e] w1]; [|done].
  unfold mbind, io_bind in Hrun.
  destruct (read_lines _ w1) as [[ls|e] w2]; [|done].
  pose proof (SourcesFacts.filter_sources_lines_shape ls) as Hshape.
  destruct (filter_sources_lines ls) as [|l ls']; [done|].
  injection Hrun as <- _. by split.
Qed.

Lemma deb_lines_shape_witness :
  get_deb_lines Samples.console SOURCES Samples.listed_world
  = (Ok ["deb http://example.test/debian bookworm main"],
     Samples.listed_world)
  /\ PyStr.startswith "deb http://example.test/debian bookworm main" "deb"
     = true.
Proof.
  split; [reflexivity|].
  destruct (deb_lines_shape Samples.console SOURCES
              ["deb http://example.test/debian bookworm main"]
              Samples.listed_world Samples.listed_world eq_refl)
    as (_ & _ & Hall).
  apply Forall_cons in Hall as [[Hdeb _] _]. exact Hdeb.
Defined.

(** X14.  Only files whose name ends in [.list] are read, also when they
    are named on the command line.  When every source is a path in normal
    form at which nothing is, or at which a regular file without that
    suffix is, whose name the console prints, [main] exits with status 255
    whatever the files hold, and nothing was changed or requested. *)
Theorem unsuffixed_sources_exit (console_print : string -> result unit)
    (sources : list string) (w : world) :
  Forall (fun s =>
            Os.plain s = true
            /\ (fs w !! s = None
                \/ (exists data, fs w !! s = Some (File data))
                   /\ PyStr.endswith s ".list" = false
                   /\ console_print ("Adding file " +:+ s) = Ok tt))
    (match sources with [] => SOURCES | _ => sources end) ->
  main_deb_lines console_print sources w = (Raise (SystemExit 255), w).
Proof.
  intros Hsources. unfold main_deb_lines, get_deb_lines.
  destruct (SourcesFacts.collect_nothing console_print w
              (match sources with [] => SOURCES | _ => sources end))
    as (files & Hcollect & Hfilter).
  { eapply Forall_impl; [exact Hsources|]. by intros s [_ Hs]. }
  unfold mbind, io_bind at 1. rewrite Hcollect, Hfilter. reflexivity.
Qed.

Lemma unsuffixed_sources_exit_witness :
  main_deb_lines Samples.console ["/etc/apt/sources.list.save"]
    Samples.unsuffixed_world
  = (Raise (SystemExit 255), Samples.unsuffixed_world).
Proof.
  apply (unsuffixed_sources_exit Samples.console
           ["/etc/apt/sources.list.save"] Samples.unsuffixed_world).
  constructor; [|constructor]. split; [reflexivity|].
  right. split_and!; [|reflexivity..].
  by exists Samples.list_text.
Defined.

(** ** Downloads *)

Module FreshFacts.

Lemma ancestors_shorter s a :
  a ∈ Os.ancestors s -> String.length a < String.length s.
Proof.
  revert a. induction s as [|c s IH]; intros a; cbn [Os.ancestors].
  - by intros ?%elem_of_nil.
  - intros Ha.
    assert (a = "" \/ a ∈ String c <$> Os.ancestors s) as [->|Hin].
    { destruct (Ascii.eqb c "/"); [|by right].
      apply elem_of_cons in Ha as [->|Ha]; [by left | by right]. }
    + cbn. lia.
    + apply list_elem_of_fmap in Hin as (a' & -> & Ha'). cbn.
      apply IH in Ha'. lia.
Qed.

Lemma parent_shorter s :
  s <> "" -> String.length (Os.parent s) < String.length s.
Proof.
  intros Hne. unfold Os.parent.
  destruct (last (Os.ancestors s)) as [a|] eqn:Hlast; cbn.
  - apply ancestors_shorter. apply last_Some in Hlast as (l & ->).
    apply elem_of_app. right. apply list_elem_of_here.
  - destruct s; [done|]. cbn. lia.
Qed.

(** The directories made on the way to a target never include the
    target. *)
Lemma target_not_made target :
  target <> "" ->
  target ∉ (Os.ancestors (Os.parent target) ++ [Os.parent target])%list.
Proof.
  intros Hne Hin. pose proof (parent_shorter target Hne) as Hp.
  apply elem_of_app in Hin as [Hin|Hin].
  - apply ancestors_shorter in Hin. lia.
  - apply list_elem_of_singleton in Hin. rewrite <- Hin in Hp. lia.
Qed.

Lemma mkdirs_frame ds :
  forall w w1,
    Os.mkdirs ds w = (Ok tt, w1) ->
    requests w1 = requests w
    /\ forall p, p ∉ ds -> fs w1 !! p = fs w !! p.
Proof.
  induction ds as [|d ds IH]; intros w w1; cbn [Os.mkdirs].
  - by intros [= <-].
  - unfold mbind, io_bind at 1. unfold Os.mkdir.
    destruct (fs w !! d) as [[data|]|] eqn:Hd; [done| |].
    + intros [Hr Hfs]%IH. split; [done|].
      intros p Hp. apply Hfs. intros Hin. apply Hp. by right.
    + destruct (String.eqb d "").
      * intros [Hr Hfs]%IH. split; [done|].
        intros p Hp. apply Hfs. intros Hin. apply Hp. by right.
      * intros [Hr Hfs]%IH. split; [done|].
        intros p Hp. rewrite Hfs by (intros Hin; apply Hp; by right).
        cbn. apply lookup_insert_ne. intros ->. apply Hp. by left.
Qed.

Lemma target_nonempty download filename : download +:+ "/" +:+ filename <> "".
Proof. by destruct download. Qed.

(** Once the directories on the way to [d] are made, [d] is one. *)
Lemma mkdirs_last ds d :
  forall w w1,
    Os.mkdirs (ds ++ [d]) w = (Ok tt, w1) ->
    d <> "" -> fs w1 !! d = Some Dir.
Proof.
  induction ds as [|a ds IH]; intros w w1; cbn [app Os.mkdirs].
  - unfold mbind, io_bind, Os.mkdir, mret, io_ret.
    destruct (fs w !! d) as [[data|]|] eqn:Hd; [done| |].
    + by intros [= <-].
    + intros Hrun Hne. destruct (String.eqb_spec d ""); [done|].
      injection Hrun as <-. cbn. apply lookup_insert_eq.
  - unfold mbind, io_bind at 1.
    destruct (Os.mkdir a w) as [[[]|e] w0]; [apply IH | done].
Qed.

Lemma proper_last parts :
  forallb Os.proper parts = true -> parts <> [] ->
  Os.proper (default "" (last parts)) = true.
Proof.
  intros Hall Hne. destruct (last parts) as [part|] eqn:Hlast.
  - apply last_Some in Hlast as (l & ->).
    rewrite forallb_app in Hall. apply andb_true_iff in Hall as [_ Hall].
    cbn in Hall. by apply andb_true_iff in Hall as [Hall _].
  - by apply last_None in Hlast.
Qed.

(** The last part of a path in normal form names no directory. *)
Lemma plain_basename path :
  Os.plain path = true -> Os.proper (Os.basename path) = true.
Proof.
  unfold Os.plain, Os.basename.
  assert (PyStr.split path "/" <> []) as Hne.
  { unfold PyStr.split. by destruct (PyStr.split_go _ _ _). }
  destruct (PyStr.split path "/") as [|[|c a] [|b l]]; try done.
  - intros H. by apply (proper_last (b :: l)).
  - intros H. by apply (proper_last [String c a]).
  - intros H. by apply (proper_last (String c a :: b :: l)).
Qed.

(** The body of the loop up to the opened file: the record is not
    skipped, the directories exist, the request is logged and the target
    is an empty file. *)
Lemma download_package_opens http_get download package uri filename w w1 req :
  package !! "uri" = Some uri ->
  package !! "filename" = Some filename ->
  Os.plain (download +:+ "/" +:+ format_value filename) = true ->
  already_downloaded (download +:+ "/" +:+ format_value filename) package w
    = (Ok false, w) ->
  fs w !! (download +:+ "/" +:+ format_value filename) <> Some Dir ->
  Os.mkdir_parents (Os.parent (download +:+ "/" +:+ format_value filename)) w
    = (Ok tt, w1) ->
  http_get (format_value uri +:+ "/" +:+ format_value filename) = Ok req ->
  download_package http_get download package w
  = (_ ← lift (parse_length (content_length req));
     Os.append (download +:+ "/" +:+ format_value filename) (content req))
      {| fs := <[download +:+ "/" +:+ format_value filename := File ""]>
                 (fs w1);
         requests := (requests w
                      ++ [format_value uri +:+ "/" +:+ format_value filename])%list |}.
Proof.
  intros Huri Hfile Hplain Hskip Hnodir Hmk Hget.
  unfold download_package, download_url, download_target, getattr.
  rewrite Huri, Hfile. unfold mbind, result_bind, lift.
  cbn -[already_downloaded String.append Os.mkdir_parents requests_get
        Os.create Os.append io_bind parse_length].
  set (target := download +:+ "/" +:+ format_value filename) in *.
  set (url := format_value uri +:+ "/" +:+ format_value filename) in *.
  unfold io_bind at 1. cbv beta iota.
  unfold io_bind at 1. cbv beta iota.
  unfold io_bind at 1. rewrite Hskip. cbv beta iota.
  unfold io_bind at 1. rewrite Hmk. cbv beta iota.
  pose proof (mkdirs_last _ _ _ _ Hmk) as Hparent.
  apply mkdirs_frame in Hmk as [Hr Hfs].
  unfold io_bind at 1, requests_get at 1. rewrite Hget. cbv beta iota.
  unfold io_bind at 1, Os.create at 1. cbn [fs requests].
  rewrite (plain_basename target Hplain).
  rewrite (Hfs target)
    by (apply target_not_made, target_nonempty).
  rewrite Hr.
  assert (String.eqb (Os.parent target) ""
          || match fs w1 !! Os.parent target with
             | Some Dir => true
             | _ => false
             end = true) as ->.
  { destruct (String.eqb_spec (Os.parent target) ""); [done|].
    by rewrite Hparent. }
  by destruct (fs w !! target) as [[data|]|].
Qed.

End FreshFacts.

(** X16.  A response without a length header ends the run with a
    [TypeError] after the target, a path in normal form, was opened for
    writing: the request was made and an empty file is left at the target.
    Nothing is shown of the download before that point, in the loop of
    [aptparser.py] and in that of [apt-mirror.py]. *)
Theorem download_without_length (http_get : string -> result response)
    (download : string) (package : fields) (uri filename : value)
    (w w1 : world) (req : response) :
  package !! "uri" = Some uri ->
  package !! "filename" = Some filename ->
  Os.plain (download +:+ "/" +:+ format_value filename) = true ->
  already_downloaded (download +:+ "/" +:+ format_value filename) package w
    = (Ok false, w) ->
  fs w !! (download +:+ "/" +:+ format_value filename) <> Some Dir ->
  Os.mkdir_parents (Os.parent (download +:+ "/" +:+ format_value filename)) w
    = (Ok tt, w1) ->
  http_get (format_value uri +:+ "/" +:+ format_value filename) = Ok req ->
  content_length req = None ->
  download_package http_get download package w
  = (Raise TypeError,
     {| fs := <[download +:+ "/" +:+ format_value filename := File ""]>
                (fs w1);
        requests := (requests w
                     ++ [format_value uri +:+ "/" +:+ format_value filename])%list |}).
Proof.
  intros Huri Hfile Hplain Hskip Hnodir Hmk Hget Hlen.
  rewrite (FreshFacts.download_package_opens http_get download package uri
             filename w w1 req Huri Hfile Hplain Hskip Hnodir Hmk Hget).
  by rewrite Hlen.
Qed.

Lemma download_without_length_witness :
  download_package Samples.no_length "/out" Samples.deb_a Samples.empty_world
  = (Raise TypeError,
     {| fs := <["/out/pool/a.deb" := File ""]> (fs Samples.out_world);
        requests := ["http://example.test/debian/pool/a.deb"] |}).
Proof.
  apply (download_without_length Samples.no_length "/out" Samples.deb_a
           (VStr "http://example.test/debian") (VStr "pool/a.deb")
           Samples.empty_world Samples.out_world
           {| status_code := 200; content := "abc";
              content_length := None |});
    first [reflexivity | discriminate].
Defined.

(** ** The totals, the import and the export *)

Module TotalsFacts.

Lemma each_elem {A B} (f : A -> result B) l out x :
  each f l = Ok out -> x ∈ l -> exists y, y ∈ out /\ f x = Ok y.
Proof.
  revert out. induction l as [|a l IH]; intros out; cbn [each].
  - by intros _ ?%elem_of_nil.
  - destruct (f a) as [b|] eqn:Hb; cbn; [|done].
    destruct (each f l) as [bs|]; cbn; [|done].
    intros [= <-] [->|Hin]%elem_of_cons.
    + exists b. split; [apply list_elem_of_here | done].
    + destruct (IH bs eq_refl Hin) as (y & Hy & Hf).
      exists y. split; [by apply list_elem_of_further | done].
Qed.

Lemma each_nil {A B} (f : A -> result B) l :
  each f l = Ok [] -> l = [].
Proof.
  destruct l as [|a l]; [done|]. cbn [each].
  destruct (f a); cbn; [|done]. by destruct (each f l).
Qed.

Lemma foldr_max_ge x0 l x : x = x0 \/ x ∈ l -> x <= foldr Nat.max x0 l.
Proof.
  induction l as [|a l IH]; cbn [foldr].
  - intros [->|?%elem_of_nil]; [lia | done].
  - intros [->|[->|Hin]%elem_of_cons].
    + specialize (IH (or_introl eq_refl)). lia.
    + lia.
    + specialize (IH (or_intror Hin)). lia.
Qed.

Lemma py_max_bound l m x : py_max l = Ok m -> x ∈ l -> x <= m.
Proof.
  destruct l as [|x0 l]; [done|]. cbn. intros [= <-] Hin.
  apply foldr_max_ge. apply elem_of_cons in Hin as [->|Hin]; auto.
Qed.

Lemma py_sum_ints sizes :
  forall acc total v,
    py_sum acc sizes = Ok total -> v ∈ sizes -> exists n, v = VInt n.
Proof.
  induction sizes as [|[s|n] sizes IH]; intros acc total v; cbn [py_sum].
  - by intros _ ?%elem_of_nil.
  - done.
  - intros Hsum [->|Hin]%elem_of_cons; [by exists n | by eapply IH].
Qed.

Lemma attr_len_text name package n :
  attr_len name package = Ok n ->
  exists s, package !! name = Some (VStr s) /\ String.length s = n.
Proof.
  unfold attr_len, getattr.
  destruct (package !! name) as [[s|z]|]; cbn; [|done..].
  intros [= <-]. by exists s.
Qed.

End TotalsFacts.

(** X17.  [main] gets past the totals only with a catalog that is not
    empty and in which every record has a name, a version and an integer
    size, that is a [Size] field spelled so; the two column widths are then
    at least the length of every name and of every version. *)
Theorem totals_need_sizes (packages : gmap string fields)
    (pkg_len ver_len : nat) (total : Z) :
  totals packages = Ok (pkg_len, ver_len, total) ->
  packages <> ∅
  /\ forall name r,
       packages !! name = Some r ->
       exists p v n,
         r !! "package" = Some (VStr p)
         /\ r !! "version" = Some (VStr v)
         /\ r !! "size" = Some (VInt n)
         /\ String.length p <= pkg_len
         /\ String.length v <= ver_len.
Proof.
  unfold totals. intros H.
  destruct (each (attr_len "package") (map_to_list packages).*2)
    as [pkg_lens|] eqn:Hpl; cbn in H; [|done].
  destruct (py_max pkg_lens) as [pl|] eqn:Hpmax; cbn in H; [|done].
  destruct (each (attr_len "version") (map_to_list packages).*2)
    as [ver_lens|] eqn:Hvl; cbn in H; [|done].
  destruct (py_max ver_lens) as [vl|] eqn:Hvmax; cbn in H; [|done].
  destruct (each (fun package => getattr package "size")
              (map_to_list packages).*2) as [sizes|] eqn:Hsz; cbn in H;
    [|done].
  destruct (py_sum 0 sizes) as [t|] eqn:Hsum; cbn in H; [|done].
  injection H as <- <- <-. split.
  - intros ->. rewrite map_to_list_empty in Hpl. cbn in Hpl.
    by injection Hpl as <-.
  - intros name r Hr.
    assert (r ∈ (map_to_list packages).*2) as Hin.
    { apply list_elem_of_fmap. exists (name, r). split; [done|].
      by apply elem_of_map_to_list. }
    destruct (TotalsFacts.each_elem _ _ _ _ Hpl Hin) as (lp & Hlp & Hp).
    destruct (TotalsFacts.each_elem _ _ _ _ Hvl Hin) as (lv & Hlv & Hv).
    destruct (TotalsFacts.each_elem _ _ _ _ Hsz Hin) as (sz & Hs & Hsize).
    apply TotalsFacts.attr_len_text in Hp as (p & Hp & <-).
    apply TotalsFacts.attr_len_text in Hv as (v & Hv & <-).
    destruct (TotalsFacts.py_sum_ints _ _ _ _ Hsum Hs) as (n & ->).
    unfold getattr in Hsize. destruct (r !! "size") as [sz|] eqn:Hrs; [|done].
    injection Hsize as ->.
    exists p, v, n. split_and!; [done..| |].
    + by eapply TotalsFacts.py_max_bound.
    + by eapply TotalsFacts.py_max_bound.
Qed.

Lemma totals_need_sizes_witness :
  totals Samples.downloaded = Ok (1, 3, 3%Z)
  /\ exists p v n,
       Samples.deb_a !! "package" = Some (VStr p)
       /\ Samples.deb_a !! "version" = Some (VStr v)
       /\ Samples.deb_a !! "size" = Some (VInt n)
       /\ String.length p <= 1
       /\ String.length v <= 3.
Proof.
  split; [reflexivity|].
  apply (proj2 (totals_need_sizes Samples.downloaded 1 3 3%Z eq_refl)
           "a" Samples.deb_a).
  reflexivity.
Defined.

(** X18.  No document gets [main] past its first use of an imported
    catalog: [json.load] builds plain dicts, text and integers, so the
    first [package.package] raises [AttributeError] (as does [values] on a
    document that is no object), and an empty object ends in the
    [ValueError] of [max] on an empty list. *)
Theorem import_never_passes (doc : json) :
  (doc = JObject ∅ /\ loaded_pkg_len (json_load doc) = Raise ValueError)
  \/ (doc <> JObject ∅
      /\ loaded_pkg_len (json_load doc) = Raise AttributeError).
Proof.
  destruct doc as [s|n|o]; [by right..|].
  unfold loaded_pkg_len. cbn.
  destruct (map_to_list o) as [|[name x] items] eqn:Hitems.
  - apply map_to_list_empty_iff in Hitems as ->. by left.
  - right. split.
    + intros [= ->]. by rewrite map_to_list_empty in Hitems.
    + cbn. by destruct x.
Qed.

(** X19.  The tag is all the export adds: where no record has a field
    [__class__] of its own, dropping that key from what the import holds
    for a name gives back the fields of the record as they were before the
    export. *)
Theorem roundtrip_up_to_tag (packages : gmap string fields) (name : string)
    (d : fields) :
  packages !! name = Some d ->
  d !! "__class__" = None ->
  delete "__class__"
    <$> loaded_fields (json_load (json_dump packages).1) name
  = catalog_fields packages name.
Proof.
  intros Hname Hnone. rewrite SnapshotFacts.roundtrip_fields.
  unfold catalog_fields. rewrite Hname. cbn. f_equal.
  rewrite delete_insert_eq. apply delete_id.
  by rewrite lookup_fmap, Hnone.
Qed.

Lemma roundtrip_up_to_tag_witness :
  delete "__class__"
    <$> loaded_fields (json_load (json_dump Samples.catalog_a).1) "a"
  = catalog_fields Samples.catalog_a "a".
Proof.
  apply (roundtrip_up_to_tag Samples.catalog_a "a"
           {[ "package" := VStr "a"; "version" := VStr "1.0";
              "uri" := VStr "http://example.test/debian" ]});
    reflexivity.
Defined.

(** X20.  Exporting changes the catalog once: a second export of the
    catalog the first one left writes the same document and leaves the
    catalog as it found it. *)
Theorem export_twice (packages : gmap string fields) :
  json_dump (json_dump packages).2
  = ((json_dump packages).1, (json_dump packages).2).
Proof.
  unfold json_dump. cbn.
  assert (NamespaceEncoder.default <$> (NamespaceEncoder.default <$> packages)
          = NamespaceEncoder.default <$> packages) as ->; [|done].
  rewrite <- map_fmap_compose. apply map_fmap_ext. intros name d _. cbn.
  unfold NamespaceEncoder.default. apply insert_insert_eq.
Qed.

(** ** Comments, and the helpers outside the main path *)

Module HelperFacts.
Import PyStr.

Lemma prefix_cons c p d s :
  String.prefix (String c p) (String d s) = Ascii.eqb c d && String.prefix p s.
Proof.
  cbn [String.prefix]. destruct (ascii_dec c d) as [->|Hne].
  - by rewrite Ascii.eqb_refl.
  - by apply Ascii.eqb_neq in Hne as ->.
Qed.

Lemma lstrip_all_chars p q s :
  all_chars q s = true -> all_chars q (lstrip p s) = true.
Proof.
  induction s as [|c s IH]; [done|]. cbn [lstrip]. intros H.
  destruct (p c); [|done]. cbn in H. apply andb_true_iff in H as [_ H]. auto.
Qed.

Lemma rstrip_all_chars p q s :
  all_chars q s = true -> all_chars q (rstrip p s) = true.
Proof.
  induction s as [|c s IH]; [done|]. cbn [rstrip all_chars].
  intros [Hc Hs]%andb_true_iff. specialize (IH Hs).
  destruct (rstrip p s) as [|c' r].
  - destruct (p c); cbn; by rewrite ?Hc.
  - cbn [all_chars] in *. by rewrite Hc, IH.
Qed.

Lemma strip_all_chars q s :
  all_chars q s = true -> all_chars q (strip s) = true.
Proof. intros H. by apply rstrip_all_chars, lstrip_all_chars. Qed.

Lemma rstrip_keep p c s :
  p c = false -> rstrip p (String c s) = String c (rstrip p s).
Proof. intros Hc. cbn [rstrip]. destruct (rstrip p s); by rewrite ?Hc. Qed.

(** The text before the first hash sign has none, and starts as the
    line does. *)
Lemma split_once_hash s :
  match split_once s "#" with
  | Some (before, _) => no_hash before
  | None => no_hash s
  end.
Proof.
  unfold no_hash. induction s as [|c s IH]; [done|].
  cbn [split_once]. rewrite FetcherFacts.prefix_char.
  destruct (Ascii.eqb "#" c) eqn:Hc; [done|].
  destruct (split_once s "#") as [[a b]|]; cbn [all_chars];
    unfold Re.none_of at 1; rewrite Ascii.eqb_sym, Hc; exact IH.
Qed.

Lemma strip_deb rest : strip ("deb" +:+ rest) = "deb" +:+ rstrip isspace rest.
Proof.
  unfold strip, strip_by.
  change ("deb" +:+ rest)
    with (String "d" (String "e" (String "b" rest))).
  cbn [lstrip]. change (isspace "d") with false. cbv iota.
  by rewrite !rstrip_keep.
Qed.

Lemma startswith_deb line :
  startswith line "deb" = true -> exists rest, line = "deb" +:+ rest.
Proof.
  unfold startswith.
  destruct line as [|c1 [|c2 [|c3 rest]]]; rewrite ?prefix_cons; [done|..].
  - change (String.prefix "eb" "") with false. by rewrite andb_false_r.
  - change (String.prefix "b" "") with false. by rewrite !andb_false_r.
  - rewrite PyStrFacts.prefix_empty, andb_true_r.
    intros [H1 [H2 H3]%andb_true_iff]%andb_true_iff.
    apply Ascii.eqb_eq in H1 as <-. apply Ascii.eqb_eq in H2 as <-.
    apply Ascii.eqb_eq in H3 as <-. by exists rest.
Qed.

Lemma star_greedy_total {R} p (k : string -> option R) s :
  (forall s', is_Some (k s')) -> is_Some (Re.star_greedy p k s).
Proof.
  intros Hk. induction s as [|c s IH]; cbn [Re.star_greedy]; [done|].
  destruct (p c); [|done]. by destruct (Re.star_greedy p k s).
Qed.

(** At a hash sign the comment pattern matches, and the match is not
    empty. *)
Lemma hash_matches whole s :
  exists n, Re.match_len COMMENT_PAT whole (String "#" s) = Some (S n).
Proof.
  unfold Re.match_len, COMMENT_PAT. cbn [Re.seq Re.run].
  change (Ascii.eqb "#" " ") with false.
  change (Ascii.eqb "#" "#") with true. cbv iota.
  match goal with |- exists n, Re.star_greedy ?p ?k s = _ =>
    destruct (star_greedy_total p k s) as [x Hx]; [by eexists|];
    rewrite Hx;
    apply ReFacts.star_greedy_post in Hx as (c & s' & -> & _ & Hk)
  end.
  cbn beta in Hk. injection Hk as <-.
  exists (String.length c). cbn [String.length].
  rewrite ReFacts.str_length_app. f_equal. lia.
Qed.

Lemma sub_go_no_hash whole s :
  forall skip, no_hash (Re.sub_go COMMENT_PAT whole s skip).
Proof.
  unfold no_hash. induction s as [|c s IH]; intros skip; [done|].
  cbn [Re.sub_go]. destruct skip as [|k]; [|apply IH].
  destruct (Ascii.eqb c "#") eqn:Hc.
  - apply Ascii.eqb_eq in Hc as ->.
    destruct (hash_matches whole s) as (n & ->). apply IH.
  - destruct (Re.match_len COMMENT_PAT whole (String c s)) as [[|n]|];
      try apply IH; cbn [all_chars]; unfold Re.none_of at 1;
      rewrite Hc; apply IH.
Qed.

End HelperFacts.

(** X21.  After the comment is removed from a declaration line, no hash
    sign is left in it: each one starts a match of the comment pattern, or
    lies inside an earlier match. *)
Theorem comment_removed (deb_line : string) :
  PyStr.all_chars (Re.none_of "#"%char) (Re.sub_empty COMMENT_PAT deb_line)
  = true.
Proof. apply HelperFacts.sub_go_no_hash. Qed.

(** X22.  What [filter_deb_line] returns starts with [deb] and holds no
    hash sign; [filter_deb_lines] of [apt-mirror.py] returns the same
    text, and gives [None] for exactly the lines on which the other
    raises. *)
Theorem filter_deb_line_result (line : string) :
  match filter_deb_line line with
  | Ok out =>
      filter_deb_lines line = Some out
      /\ PyStr.startswith line "deb" = true
      /\ PyStr.startswith out "deb" = true
      /\ PyStr.all_chars (Re.none_of "#"%char) out = true
  | Raise e =>
      e = DebSrcLineUnparseable
      /\ filter_deb_lines line = None
      /\ PyStr.startswith line "deb" = false
  end.
Proof.
  unfold filter_deb_line, filter_deb_lines.
  destruct (PyStr.startswith line "deb") eqn:Hdeb; [|done].
  destruct (HelperFacts.startswith_deb line Hdeb) as (rest & ->).
  pose proof (HelperFacts.split_once_hash ("deb" +:+ rest)) as Hhash.
  change ("deb" +:+ rest)
    with (String "d" (String "e" (String "b" rest))) in *.
  cbn [PyStr.split_once] in *.
  rewrite !FetcherFacts.prefix_char in *.
  change (Ascii.eqb "#" "d") with false in *.
  change (Ascii.eqb "#" "e") with false in *.
  change (Ascii.eqb "#" "b") with false in *. cbv iota in *.
  destruct (PyStr.split_once rest "#") as [[a b]|].
  - split_and!; [done | done | | by apply HelperFacts.strip_all_chars].
    change (String "d" (String "e" (String "b" a))) with ("deb" +:+ a).
    rewrite HelperFacts.strip_deb. apply PyStrFacts.prefix_app.
  - split_and!; [done | done | | by apply HelperFacts.strip_all_chars].
    change (String "d" (String "e" (String "b" rest))) with ("deb" +:+ rest).
    rewrite HelperFacts.strip_deb. apply PyStrFacts.prefix_app.
Qed.

(** X23.  [copy_url] cannot complete: after its request, which it always
    makes, it raises, at the latest with the [NameError] of the name
    [progress], which only [main] binds. *)
Theorem copy_url_never_returns (http_get : string -> result response)
    (url path : string) (w : world) :
  exists e w',
    copy_url http_get url path w = (Raise e, w')
    /\ requests w' = (requests w ++ [url])%list.
Proof.
  unfold copy_url, mbind, io_bind, requests_get, Os.create, lift, raise.
  destruct (http_get url) as [req|e]; [|by eexists _, _].
  cbn [fs requests].
  repeat case_match; simplify_eq; by eexists _, _.
Qed.

(** X24.  [get_files_from_deb_line] refuses the lines that
    [get_packages_from_deb_line] refuses, with the same exception and
    before any request; whatever the line, it changes no file and asks at
    most for [InRelease] files. *)
Theorem get_files_requests (console_print : string -> result unit)
    (http_get : string -> result response)
    (gunzip decode : string -> result string) (deb_line : string)
    (w : world) :
  reads_only (fun url => PyStr.endswith url "InRelease" = true) w
    (get_files_from_deb_line http_get decode deb_line w).2
  /\ (skipped deb_line ->
      exists e,
        get_files_from_deb_line http_get decode deb_line w = (Raise e, w)
        /\ get_packages_from_deb_line console_print http_get gunzip deb_line w
           = (Raise e, w)).
Proof.
  unfold get_files_from_deb_line, get_packages_from_deb_line, skipped.
  destruct (Re.rmatch SOURCES_LINE_PAT _) as [[results rest]|].
  - destruct (String.eqb_spec (group results "source_type") "deb-src")
      as [Hsrc|Hsrc].
    + split; [apply WorldFacts.reads_only_refl|]. intros _. by eexists.
    + split; [|done].
      unfold mbind, io_bind, requests_get, lift, raise, mret, io_ret.
      assert (PyStr.endswith
                (Os.join (group results "url")
                   ["dists"; group results "release"; "InRelease"])
                "InRelease" = true) as Hurl.
      { cbn [Os.join fold_left].
        match goal with |- PyStr.endswith (Os.join2 ?a ?b) _ = _ =>
          destruct (FetcherFacts.join2_shape a b eq_refl) as (sep & _ & ->)
        end.
        rewrite <- PyStrFacts.str_app_assoc. apply WorldFacts.endswith_app. }
      destruct (http_get _) as [req|e];
        [destruct (status_code req =? 200)%Z;
         [destruct (decode (content req))|]|];
        by apply WorldFacts.reads_only_one.
  - split; [apply WorldFacts.reads_only_refl|]. intros _. by eexists.
Qed.

(** ** Lines the parser accepts *)

Module LinesFacts.
Import PyStr Parser ParserFacts.

Lemma parse_lines_accepted lines :
  forall pkg r, parse_lines lines pkg = Ok r -> Forall accepted lines.
Proof.
  assert (forall n lines pkg r,
             length lines <= n -> parse_lines lines pkg = Ok r ->
             Forall accepted lines) as Hn; [|by eauto].
  clear lines. induction n as [|n IH]; intros lines pkg r Hlen Hp.
  - destruct lines; [constructor | simpl in Hlen; lia].
  - destruct lines as [|line lines]; [constructor|].
    cbn [parse_lines] in Hp. unfold split_header in Hp.
    destruct (split_once line ": ") as [[k v]|] eqn:Hsplit; [|done].
    cbn in Hp. destruct (coerce_size k v) as [v0|]; [|done]. cbn in Hp.
    match type of Hp with continuations ?k _ _ = _ =>
      destruct (continuations_stop k lines None)
        as (e' & popped & lines' & Hk & -> & Hpop)
    end.
    rewrite Hk in Hp. destruct (folded v0 e') as [v'|]; [|done].
    cbn in Hp. constructor; [right; by exists k, v|].
    apply Forall_app. split.
    + eapply Forall_impl; [exact Hpop|]. intros l Hl. by left.
    + eapply IH; [|exact Hp]. simpl in Hlen. rewrite length_app in Hlen. lia.
Qed.

Lemma parse_lines_nonempty l rest pkg r :
  parse_lines (l :: rest) pkg = Ok r -> r <> ∅.
Proof.
  intros Hp. cbn [parse_lines] in Hp.
  destruct (split_header l) as [[k v]|]; [|done]. cbn in Hp.
  destruct (coerce_size k v) as [v0|]; [|done]. cbn in Hp.
  match type of Hp with continuations ?k _ _ = _ =>
    destruct (continuations_stop k rest None)
      as (e' & popped & lines' & Hk & -> & _)
  end.
  rewrite Hk in Hp. destruct (folded v0 e') as [v'|]; [|done]. cbn in Hp.
  eapply (parse_lines_invariant (fun pkg => pkg <> ∅)); [| |exact Hp].
  - intros. apply insert_non_empty.
  - apply insert_non_empty.
Qed.

Lemma split_not_nil s sep : split s sep <> [].
Proof. unfold split. by destruct (split_go sep s 0). Qed.

End LinesFacts.

(** X25.  A stanza parses only when its first line has the separator of a
    header, a colon and a space, and every later line has it or starts with
    a space: a header with nothing after the colon is refused, and a parsed
    record is never empty. *)
Theorem parsed_lines_have_separator (package : string) (pkg : fields) :
  Parser.parse_package_metadata package = Ok pkg ->
  (exists l rest k v,
      PyStr.split (PyStr.strip_nl package) nl = l :: rest
      /\ PyStr.split_once l ": " = Some (k, v))
  /\ Forall accepted (PyStr.split (PyStr.strip_nl package) nl)
  /\ pkg <> ∅.
Proof.
  unfold Parser.parse_package_metadata. change (String PyStr.NL "") with nl.
  intros Hp.
  pose proof (LinesFacts.parse_lines_accepted _ _ _ Hp) as Hall.
  pose proof (LinesFacts.split_not_nil (PyStr.strip_nl package) nl) as Hne.
  destruct (PyStr.split (PyStr.strip_nl package) nl) as [|l rest]; [done|].
  split_and!; [|done|by eapply LinesFacts.parse_lines_nonempty].
  cbn [Parser.parse_lines] in Hp. unfold Parser.split_header in Hp.
  destruct (PyStr.split_once l ": ") as [[k v]|] eqn:Hsplit; [|done].
  by exists l, rest, k, v.
Qed.

Lemma parsed_lines_have_separator_witness :
  Parser.parse_package_metadata ("Package: a" +:+ nl +:+ " more")
  = Ok {[ "package" := VStr ("a" +:+ nl +:+ "more") ]}
  /\ Forall accepted ["Package: a"; " more"].
Proof.
  split; [reflexivity|].
  exact (proj1 (proj2 (parsed_lines_have_separator
                         ("Package: a" +:+ nl +:+ " more")
                         {[ "package" := VStr ("a" +:+ nl +:+ "more") ]}
                         eq_refl))).
Defined.
